(** * Connection routing of the 3D axonometric diagram widget

    Shallow embedding of [ConnectionPointCalculator], [BezierCurveGenerator]
    and [ConnectionManager] from
    [src/asset_setups/integration_v2/diagram3d.js].

    JavaScript numbers are modelled by the reals: the geometry is stated
    for exact arithmetic.  [Math.abs], [Math.max], [Math.min] and
    [Math.sqrt] are [Rabs], [Rmax], [Rmin] and [sqrt]; a JavaScript
    comparison [a > b] is the decision [Rlt_dec b a]. *)

From Stdlib Require Import Reals Psatz String List Bool.
Import ListNotations.

Open Scope R_scope.

(** ** Comparisons as the source writes them *)

Definition Rgtb (a b : R) : bool := if Rlt_dec b a then true else false.
Definition Rgeb (a b : R) : bool := if Rle_dec b a then true else false.

Lemma Rgtb_spec a b : Rgtb a b = true <-> b < a.
Proof. unfold Rgtb; destruct (Rlt_dec b a); split; intros; auto; discriminate. Qed.

Lemma Rgeb_spec a b : Rgeb a b = true <-> b <= a.
Proof. unfold Rgeb; destruct (Rle_dec b a); split; intros; auto; discriminate. Qed.

(** ** THREE.Vector3 *)

Record vec3 := V3 { vx : R; vy : R; vz : R }.

Definition vsub (a b : vec3) : vec3 := V3 (vx a - vx b) (vy a - vy b) (vz a - vz b).

Definition vlength (v : vec3) : R := sqrt (vx v * vx v + vy v * vy v + vz v * vz v).

(** [Vector3.normalize] is [divideScalar (length () || 1)]. *)
Definition vnormalize (v : vec3) : vec3 :=
  let l := vlength v in
  let d := if Req_EM_T l 0 then 1 else l in
  V3 (vx v / d) (vy v / d) (vz v / d).

Definition distanceTo (a b : vec3) : R := vlength (vsub a b).

(** ** Scene elements, as [ConnectionPointCalculator] reads them *)

(** [geometry.parameters] of a [BoxGeometry]. *)
Record box_params := BoxParams { width : R; height : R; depth : R }.

(** [geometry.boundingBox] after [computeBoundingBox ()]. *)
Record box3 := Box3 { bmin : vec3; bmax : vec3 }.

Record geometry := Geometry { parameters : box_params; boundingBox : box3 }.

(** The [userData] fields read by the calculator. *)
Record element := Element {
  etype : string;
  position : vec3;
  egeometry : geometry;
  isDatabaseComponent : bool;
  hasPlataform : bool
}.

(** ** ConnectionPointCalculator *)

Definition getPlatformConnectionPoint (platform targetElement : element) : vec3 :=
  let platformPos := position platform in
  let targetPos := position targetElement in
  let p := parameters (egeometry platform) in
  let dx := vx targetPos - vx platformPos in
  let dz := vz targetPos - vz platformPos in
  let absX := Rabs dx in
  let absZ := Rabs dz in
  let '(connectionX, connectionZ) :=
    if Rgtb absX absZ then
      (vx platformPos + (if Rgtb dx 0 then width p / 2 else - (width p / 2)),
       vz platformPos + Rmax (- (depth p / 2)) (Rmin (depth p / 2) dz))
    else
      (vx platformPos + Rmax (- (width p / 2)) (Rmin (width p / 2) dx),
       vz platformPos + (if Rgtb dz 0 then depth p / 2 else - (depth p / 2))) in
  let connectionY := vy platformPos + height p / 2 + 0.1 in
  V3 connectionX connectionY connectionZ.

Definition getStandaloneCubeConnectionPoint (cube targetElement : element) : vec3 :=
  let cubePos := position cube in
  let targetPos := position targetElement in
  let bb := boundingBox (egeometry cube) in
  let actualWidth := vx (bmax bb) - vx (bmin bb) in
  let actualHeight := vy (bmax bb) - vy (bmin bb) in
  let actualDepth := vz (bmax bb) - vz (bmin bb) in
  let halfWidth := actualWidth / 2 in
  let halfHeight := actualHeight / 2 in
  let halfDepth := actualDepth / 2 in
  let dx := vx targetPos - vx cubePos in
  let dy := vy targetPos - vy cubePos in
  let dz := vz targetPos - vz cubePos in
  let absX := Rabs dx in
  let absY := Rabs dy in
  let absZ := Rabs dz in
  if Rgeb absX absY && Rgeb absX absZ then
    V3 (vx cubePos + (if Rgtb dx 0 then halfWidth else - halfWidth)) (vy cubePos) (vz cubePos)
  else if Rgeb absY absX && Rgeb absY absZ then
    V3 (vx cubePos) (vy cubePos + (if Rgtb dy 0 then halfHeight else - halfHeight)) (vz cubePos)
  else
    V3 (vx cubePos) (vy cubePos) (vz cubePos + (if Rgtb dz 0 then halfDepth else - halfDepth)).

Definition cylinder_radius : R := 0.9.
Definition cylinder_height : R := 1.8.

Definition getCylinderConnectionPoint (cylinder targetElement : element) : vec3 :=
  let cylinderPos := position cylinder in
  let targetPos := position targetElement in
  let radius := cylinder_radius in
  let height := cylinder_height in
  let dx := vx targetPos - vx cylinderPos in
  let dz := vz targetPos - vz cylinderPos in
  let dy := vy targetPos - vy cylinderPos in
  let horizontalDistance := sqrt (dx * dx + dz * dz) in
  if Rgtb (Rabs dy) horizontalDistance then
    V3 (vx cylinderPos) (vy cylinderPos + (if Rgtb dy 0 then height / 2 else - (height / 2)))
       (vz cylinderPos)
  else if Rgtb horizontalDistance 0 then
    let normalizedX := dx / horizontalDistance in
    let normalizedZ := dz / horizontalDistance in
    V3 (vx cylinderPos + normalizedX * radius) (vy cylinderPos) (vz cylinderPos + normalizedZ * radius)
  else cylinderPos.

(** Components resting on a platform: fixed nominal [size = 1.5]. *)
Definition component_halfSize : R := 1.5 / 2.

Definition getComponentConnectionPoint (component targetElement : element) : vec3 :=
  if isDatabaseComponent component then getCylinderConnectionPoint component targetElement
  else if negb (hasPlataform component) then getStandaloneCubeConnectionPoint component targetElement
  else
    let componentPos := position component in
    let targetPos := position targetElement in
    let halfSize := component_halfSize in
    let dx := vx targetPos - vx componentPos in
    let dy := vy targetPos - vy componentPos in
    let dz := vz targetPos - vz componentPos in
    let absX := Rabs dx in
    let absY := Rabs dy in
    let absZ := Rabs dz in
    if Rgeb absX absY && Rgeb absX absZ then
      V3 (vx componentPos + (if Rgtb dx 0 then halfSize else - halfSize)) (vy componentPos) (vz componentPos)
    else if Rgeb absY absX && Rgeb absY absZ then
      V3 (vx componentPos) (vy componentPos + (if Rgtb dy 0 then halfSize else - halfSize)) (vz componentPos)
    else
      V3 (vx componentPos) (vy componentPos) (vz componentPos + (if Rgtb dz 0 then halfSize else - halfSize)).

Definition getNodeConnectionPoint (node targetElement : element) : vec3 := position node.
Definition getDefaultConnectionPoint (e targetElement : element) : vec3 := position e.

Definition getConnectionPoint (e targetElement : element) : vec3 :=
  if String.eqb (etype e) "platform" then getPlatformConnectionPoint e targetElement
  else if String.eqb (etype e) "component" then getComponentConnectionPoint e targetElement
  else if String.eqb (etype e) "node" then getNodeConnectionPoint e targetElement
  else getDefaultConnectionPoint e targetElement.

(** ** THREE.CubicBezierCurve3 *)

Record curve3 := Curve3 { cv0 : vec3; cv1 : vec3; cv2 : vec3; cv3 : vec3 }.

(** [CubicBezier] of three.js' [Interpolations]: the sum of the four
    Bernstein terms [CubicBezierP0] .. [CubicBezierP3]. *)
Definition CubicBezier (t p0 p1 p2 p3 : R) : R :=
  let k := 1 - t in
  k * k * k * p0 + 3 * k * k * t * p1 + 3 * k * t * t * p2 + t * t * t * p3.

(** [CubicBezierCurve3.getPoint]. *)
Definition getPoint (c : curve3) (t : R) : vec3 :=
  V3 (CubicBezier t (vx (cv0 c)) (vx (cv1 c)) (vx (cv2 c)) (vx (cv3 c)))
     (CubicBezier t (vy (cv0 c)) (vy (cv1 c)) (vy (cv2 c)) (vy (cv3 c)))
     (CubicBezier t (vz (cv0 c)) (vz (cv1 c)) (vz (cv2 c)) (vz (cv3 c))).

(** ** BezierCurveGenerator *)

(** The option bag passed to [createCurve]; [None] is an absent key, which
    the destructuring defaults of each function replace. *)
Record curve_options := CurveOptions {
  curvature : option R;
  verticalOffset : option R;
  horizontalOffset : option R;
  curveType : option string
}.

Definition with_default (o : option R) (d : R) : R :=
  match o with Some v => v | None => d end.

Definition createArchitecturalCurve (startPoint endPoint : vec3) (options : curve_options) : curve3 :=
  let vo := with_default (verticalOffset options) 0.8 in
  let heightDiff := Rabs (vy endPoint - vy startPoint) in
  let curveHeight := Rmax vo (heightDiff * 0.3) in
  let midPoint := V3 ((vx startPoint + vx endPoint) / 2)
                     (Rmax (vy startPoint) (vy endPoint) + curveHeight)
                     ((vz startPoint + vz endPoint) / 2) in
  let controlPoint1 := V3 (vx startPoint + (vx midPoint - vx startPoint) * 0.6)
                          (vy startPoint + curveHeight * 0.7)
                          (vz startPoint + (vz midPoint - vz startPoint) * 0.6) in
  let controlPoint2 := V3 (vx endPoint + (vx midPoint - vx endPoint) * 0.6)
                          (vy endPoint + curveHeight * 0.7)
                          (vz endPoint + (vz midPoint - vz endPoint) * 0.6) in
  Curve3 startPoint controlPoint1 controlPoint2 endPoint.

Definition calculateControlPoint1 (start end_ : vec3) (vo ho distance : R) : vec3 :=
  let direction := vnormalize (vsub end_ start) in
  let perpendicular := V3 (- vz direction) 0 (vx direction) in
  V3 (vx start + vx direction * (distance * 0.3) + vx perpendicular * ho)
     (vy start + vo)
     (vz start + vz direction * (distance * 0.3) + vz perpendicular * ho).

Definition calculateControlPoint2 (start end_ : vec3) (vo ho distance : R) : vec3 :=
  let direction := vnormalize (vsub start end_) in
  let perpendicular := V3 (- vz direction) 0 (vx direction) in
  V3 (vx end_ + vx direction * (distance * 0.3) + vx perpendicular * ho)
     (vy end_ + vo)
     (vz end_ + vz direction * (distance * 0.3) + vz perpendicular * ho).

Definition createSmoothCurve (startPoint endPoint : vec3) (options : curve_options) : curve3 :=
  let vo := with_default (verticalOffset options) 0.6 in
  let ho := with_default (horizontalOffset options) 0.3 in
  let distance := distanceTo startPoint endPoint in
  Curve3 startPoint
         (calculateControlPoint1 startPoint endPoint vo ho distance)
         (calculateControlPoint2 startPoint endPoint vo ho distance)
         endPoint.

Definition createSharpCurve (startPoint endPoint : vec3) (options : curve_options) : curve3 :=
  let vo := with_default (verticalOffset options) 0.4 in
  let controlPoint1 := V3 (vx startPoint + (vx endPoint - vx startPoint) * 0.3)
                          (vy startPoint + vo)
                          (vz startPoint + (vz endPoint - vz startPoint) * 0.3) in
  let controlPoint2 := V3 (vx startPoint + (vx endPoint - vx startPoint) * 0.7)
                          (vy endPoint + vo)
                          (vz startPoint + (vz endPoint - vz startPoint) * 0.7) in
  Curve3 startPoint controlPoint1 controlPoint2 endPoint.

Definition createCurve (startPoint endPoint : vec3) (options : curve_options) : curve3 :=
  match curveType options with
  | Some ct =>
      if String.eqb ct "smooth" then createSmoothCurve startPoint endPoint options
      else if String.eqb ct "sharp" then createSharpCurve startPoint endPoint options
      else createArchitecturalCurve startPoint endPoint options
  | None => createArchitecturalCurve startPoint endPoint options
  end.

(** ** ConnectionManager *)

(** A child of [connectionGroup]: a tube/line ([type: 'curve']) or an arrow
    ([type: 'arrow']), tagged with its [userData.connectionId]. *)
Record visual := Visual { vconnectionId : string; vtype : string; vcurve : curve3 }.

(** A flow particle of [animationParticles] with its [userData]. *)
Record particle := Particle {
  pconnectionId : string;
  pcurve : curve3;
  progress : R;
  speed : R;
  pposition : vec3;
  pscale : R
}.

Record connection := Connection {
  cid : string;
  fromElement : element;
  toElement : element;
  ccurve : curve3;
  coptions : curve_options
}.

(** The options of a call to [addConnection]: the keys the manager reads. *)
Record add_options := AddOptions { acurve : curve_options; ashowArrows : option bool }.

(** [this.options] of the manager, restricted to the keys that matter here.
    The [animationGroup] holds exactly the particles of
    [animationParticles] (both are updated together by every method), so it
    is not tracked separately. *)
Record manager := Manager {
  animationEnabled : bool;
  showArrows : bool;
  baseCurveOptions : curve_options;
  visible : bool;
  connectionGroup : list visual;
  animationParticles : list particle;
  connections : list connection;
  curves : list curve3
}.

(** [new ConnectionManager(scene, options)]: [animationEnabled] defaults to
    [true] and [showArrows] to [false]. *)
Definition newConnectionManager (animationEnabled0 showArrows0 : option bool)
    (base : curve_options) : manager :=
  Manager (match animationEnabled0 with Some b => b | None => true end)
          (match showArrows0 with Some b => b | None => false end)
          base true [] [] [] [].

(** [{ ...this.options, ...options }] on the curve keys. *)
Definition merge_opt {A} (base call : option A) : option A :=
  match call with Some v => Some v | None => base end.

Definition merge_curve_options (base call : curve_options) : curve_options :=
  CurveOptions (merge_opt (curvature base) (curvature call))
               (merge_opt (verticalOffset base) (verticalOffset call))
               (merge_opt (horizontalOffset base) (horizontalOffset call))
               (merge_opt (curveType base) (curveType call)).

Definition origin : vec3 := V3 0 0 0.

(** [createAnimationParticle]: [r1] and [r2] are the two [Math.random ()]
    draws; the new mesh sits at the origin until the next frame. *)
Definition createAnimationParticle (curve : curve3) (connectionId : string) (r1 r2 : R)
    (m : manager) : manager :=
  let p := Particle connectionId curve r1 (0.008 + r2 * 0.012) origin 1 in
  Manager (animationEnabled m) (showArrows m) (baseCurveOptions m) (visible m)
          (connectionGroup m) (animationParticles m ++ [p]) (connections m) (curves m).

(** [addConnection]: [id] is the value [generateConnectionId ()] returned. *)
Definition addConnection (fromE toE : element) (options : add_options) (id : string)
    (r1 r2 : R) (m : manager) : manager :=
  let fromPoint := getConnectionPoint fromE toE in
  let toPoint := getConnectionPoint toE fromE in
  let curveOptions := merge_curve_options (baseCurveOptions m) (acurve options) in
  let arrows := match ashowArrows options with Some b => b | None => showArrows m end in
  let curve := createCurve fromPoint toPoint curveOptions in
  let conn := Connection id fromE toE curve curveOptions in
  let group := connectionGroup m ++ [Visual id "curve" curve]
               ++ (if arrows then [Visual id "arrow" curve] else []) in
  let m1 := Manager (animationEnabled m) (showArrows m) (baseCurveOptions m) (visible m)
                    group (animationParticles m) (connections m ++ [conn]) (curves m ++ [curve]) in
  if animationEnabled m then createAnimationParticle curve id r1 r2 m1 else m1.

(** [removeConnection]: [traverse] visits the group and its children; the
    group's own [userData] has no [connectionId], and no child has children. *)
Definition removeConnection (connectionId : string) (m : manager) : manager :=
  Manager (animationEnabled m) (showArrows m) (baseCurveOptions m) (visible m)
          (filter (fun v => negb (String.eqb (vconnectionId v) connectionId)) (connectionGroup m))
          (filter (fun p => negb (String.eqb (pconnectionId p) connectionId)) (animationParticles m))
          (filter (fun c => negb (String.eqb (cid c) connectionId)) (connections m))
          (curves m).

Section Animation.

(** [Curve.getPointAt] (arc-length parametrisation, computed by three.js
    from a table of sampled lengths); no claim here depends on its value. *)
Variable getPointAt : curve3 -> R -> vec3.

Definition advance (p : particle) : particle :=
  let pr0 := progress p + speed p in
  let pr := if Rgeb pr0 1 then 0 else pr0 in
  Particle (pconnectionId p) (pcurve p) pr (speed p) (getPointAt (pcurve p) pr)
           (sin (pr * PI * 4) * 0.3 + 0.7).

Definition updateAnimations (m : manager) : manager :=
  if animationEnabled m then
    Manager (animationEnabled m) (showArrows m) (baseCurveOptions m) (visible m)
            (connectionGroup m) (map advance (animationParticles m)) (connections m) (curves m)
  else m.

End Animation.

(** The particles [toggleAnimation] creates when it turns animation on:
    [curves.forEach((curve, index) => ...)] pairs [curves[index]] with
    [connections[index]]; [rnd index] are the two random draws. *)
Fixpoint spawnParticles (rnd : nat -> R * R) (conns : list connection) (index : nat)
    (cs : list curve3) : list particle :=
  match cs with
  | [] => []
  | curve :: cs' =>
      match nth_error conns index with
      | Some conn =>
          [Particle (cid conn) curve (fst (rnd index)) (0.008 + snd (rnd index) * 0.012) origin 1]
      | None => []
      end ++ spawnParticles rnd conns (S index) cs'
  end.

Definition toggleAnimation (rnd : nat -> R * R) (m : manager) : manager :=
  let en := negb (animationEnabled m) in
  Manager en (showArrows m) (baseCurveOptions m) (visible m) (connectionGroup m)
          (if en then animationParticles m ++ spawnParticles rnd (connections m) 0 (curves m)
           else [])
          (connections m) (curves m).

Definition setVisible (b : bool) (m : manager) : manager :=
  Manager (animationEnabled m) (showArrows m) (baseCurveOptions m) b
          (connectionGroup m) (animationParticles m) (connections m) (curves m).

Definition clear (m : manager) : manager :=
  Manager (animationEnabled m) (showArrows m) (baseCurveOptions m) (visible m) [] [] [] [].

(** A call on the public interface of the manager. *)
Inductive op :=
| OpAdd (fromE toE : element) (options : add_options) (id : string) (r1 r2 : R)
| OpRemove (id : string)
| OpUpdate
| OpToggle (rnd : nat -> R * R)
| OpSetVisible (b : bool)
| OpClear.

Definition step (getPointAt : curve3 -> R -> vec3) (m : manager) (o : op) : manager :=
  match o with
  | OpAdd f t opts id r1 r2 => addConnection f t opts id r1 r2 m
  | OpRemove id => removeConnection id m
  | OpUpdate => updateAnimations getPointAt m
  | OpToggle rnd => toggleAnimation rnd m
  | OpSetVisible b => setVisible b m
  | OpClear => clear m
  end.

Definition run (getPointAt : curve3 -> R -> vec3) (m : manager) (ops : list op) : manager :=
  fold_left (step getPointAt) ops m.

Definition count_add (n : nat) (o : op) : nat :=
  match o with OpAdd _ _ _ _ _ _ => S n | OpClear => 0%nat | _ => n end.

(** Number of [addConnection] calls since the last [clear ()]. *)
Definition adds_since_clear (ops : list op) : nat := fold_left count_add ops 0%nat.

(** ** Sample scene of the specification's end-to-end scenarios *)

Definition no_bbox : box3 := Box3 origin origin.

(** Platform P1: centre (-6,0,6), width 8, height 0.2, depth 4. *)
Definition platformP1 : element :=
  Element "platform" (V3 (-6) 0 6) (Geometry (BoxParams 8 0.2 4) no_bbox) false false.

(** Platform P2: centre (-6,0,1), width 6, height 0.2, depth 3. *)
Definition platformP2 : element :=
  Element "platform" (V3 (-6) 0 1) (Geometry (BoxParams 6 0.2 3) no_bbox) false false.

(** A standalone component measured at 1.66 x 1.66 x 1.6 (beveled extrusion). *)
Definition hubCube : element :=
  Element "component" (V3 0 0.75 0)
          (Geometry (BoxParams 0 0 0) (Box3 (V3 (-0.83) (-0.83) (-0.8)) (V3 0.83 0.83 0.8)))
          false false.

(** A database component (cylinder) at (2,0,-4). *)
Definition dbCylinder : element :=
  Element "component" (V3 2 0 (-4)) (Geometry (BoxParams 0 0 0) no_bbox) true true.

(** A bare scene node, resolved to its own position. *)
Definition node_at (p : vec3) : element :=
  Element "node" p (Geometry (BoxParams 0 0 0) no_bbox) false false.

(** Style bag setting only [verticalOffset] (architectural by default). *)
Definition archOptions (vo : R) : curve_options := CurveOptions None (Some vo) None None.

(** [n] frames of the render loop. *)
Definition ticks (getPointAt : curve3 -> R -> vec3) (n : nat) (m : manager) : manager :=
  Nat.iter n (updateAnimations getPointAt) m.

(** A manager with animation on, holding one connection between two nodes
    whose particle drew progress 0.99 and speed [0.008 + 0.5 * 0.012]. *)
Definition flowDemo : manager :=
  addConnection (node_at (V3 0 0 0)) (node_at (V3 1 0 0))
                (AddOptions (archOptions 0.6) None) "connection_a" 0.99 0.5
                (newConnectionManager None None (CurveOptions None None None None)).

(** A platform of width 8 and depth 4 at the origin. *)
Definition tiePlatform : element :=
  Element "platform" (V3 0 0 0) (Geometry (BoxParams 8 0.2 4) no_bbox) false false.

(** The half-extents a non-database component is resolved with: the fixed
    nominal half-size on a platform, the measured bounding box otherwise. *)
Definition component_half_extents (e : element) : vec3 :=
  if hasPlataform e then V3 component_halfSize component_halfSize component_halfSize
  else let bb := boundingBox (egeometry e) in
       V3 ((vx (bmax bb) - vx (bmin bb)) / 2) ((vy (bmax bb) - vy (bmin bb)) / 2)
          ((vz (bmax bb) - vz (bmin bb)) / 2).

(** Two connections from the origin, the first removed, then animation
    switched off and on again. *)
Definition reuseScenario : list op :=
  [OpAdd (node_at (V3 0 0 0)) (node_at (V3 1 0 0)) (AddOptions (archOptions 0.6) None)
         "connection_a" 0.5 0.5;
   OpAdd (node_at (V3 0 0 0)) (node_at (V3 2 0 0)) (AddOptions (archOptions 0.6) None)
         "connection_b" 0.5 0.5;
   OpRemove "connection_a";
   OpToggle (fun _ => (0.5, 0.5));
   OpToggle (fun _ => (0.5, 0.5))].

Definition defaultManager : manager :=
  newConnectionManager None None (CurveOptions None None None None).

(** The progress update of one frame in [updateAnimations]. *)
Definition progress_step (s x : R) : R := if Rgeb (x + s) 1 then 0 else x + s.

(** Every visual child and every particle belongs to a stored connection. *)
Definition ids_stored (m : manager) : Prop :=
  Forall (fun v => In (vconnectionId v) (map cid (connections m))) (connectionGroup m) /\
  Forall (fun p => In (pconnectionId p) (map cid (connections m))) (animationParticles m).

(** ** Scene construction ([Diagram3D]) *)

(** [String.prototype.toLowerCase] on ASCII text. *)
Definition ascii_lower (c : Ascii.ascii) : Ascii.ascii :=
  let n := Ascii.nat_of_ascii c in
  if (65 <=? n)%nat && (n <=? 90)%nat then Ascii.ascii_of_nat (n + 32) else c.

Fixpoint toLowerCase (s : string) : string :=
  match s with
  | EmptyString => EmptyString
  | String c s' => String (ascii_lower c) (toLowerCase s')
  end.

(** [s.includes(sub)]. *)
Fixpoint includes (s sub : string) : bool :=
  String.prefix sub s || match s with EmptyString => false | String _ s' => includes s' sub end.

Definition databaseKeywords : list string :=
  ["airtable"; "excel"; "database"; "db"; "storage"; "data"]%string.

(** [Diagram3D.isDatabaseComponent]; [None] is an absent name. *)
Definition Diagram3D_isDatabaseComponent (componentName : option string) : bool :=
  let name := toLowerCase (match componentName with Some n => n | None => ""%string end) in
  if includes name "airtable" || includes name "excel" then true
  else existsb (fun keyword => includes name keyword) databaseKeywords.

(** [x || d] on a number read from the configuration: an absent key and
    [0] both give the default ([NaN] is not modelled). *)
Definition js_or (x : option R) (d : R) : R :=
  match x with Some v => if Req_EM_T v 0 then d else v | None => d end.

Record platform_data := PlatformData {
  pd_width : option R; pd_height : option R; pd_depth : option R;
  pd_x : option R; pd_y : option R; pd_z : option R
}.

Record component_data := ComponentData {
  cd_name : option string; cd_size : option R;
  cd_x : option R; cd_y : option R; cd_z : option R
}.

(** [Diagram3D.createPlatform]: the mesh as the calculator sees it. *)
Definition createPlatform (platformData : platform_data) : element :=
  let width := js_or (pd_width platformData) 4 in
  let height := js_or (pd_height platformData) 0.5 in
  let depth := js_or (pd_depth platformData) 4 in
  Element "platform"
          (V3 (js_or (pd_x platformData) 0) (js_or (pd_y platformData) (-0.25))
              (js_or (pd_z platformData) 0))
          (Geometry (BoxParams width height depth) no_bbox) false false.

(** The geometry [createComponent] builds: a [CylinderGeometry] (radius top,
    radius bottom, height; centred on its position) or the [ExtrudeGeometry]
    of a rounded square of side [size], extruded by [depth] with a bevel
    ([bevelSize], [bevelThickness]) and then centred ([geometry.center ()]). *)
Inductive component_shape :=
| CylinderShape (radiusTop radiusBottom height : R)
| ExtrudedRoundedSquare (size depth bevelSize bevelThickness : R).


Record placed_component := PlacedComponent {
  pc_shape : component_shape;
  pc_position : vec3;
  pc_isDatabaseComponent : bool;
  pc_hasPlataform : bool
}.

(** [Diagram3D.createComponent]; [layerPlatform] is
    [this.data[layerName].platform] when the layer has one. *)
Definition createComponent (compData : component_data) (layerPlatform : option platform_data)
    : placed_component :=
  let size := js_or (cd_size compData) 1.5 in
  let isDb := Diagram3D_isDatabaseComponent (cd_name compData) in
  let shape := if isDb then CylinderShape (size * 0.6) (size * 0.6) (size * 1.2)
               else ExtrudedRoundedSquare size size 0.08 0.05 in
  let yPos := match layerPlatform with
              | Some platformData =>
                  let platformHeight := js_or (pd_height platformData) 0.5 in
                  let platformY := js_or (pd_y platformData) (-0.25) in
                  platformY + platformHeight / 2 + size / 2 + 0.05
              | None => js_or (cd_y compData) 0.75
              end in
  PlacedComponent shape (V3 (js_or (cd_x compData) 0) yPos (js_or (cd_z compData) 0))
                  isDb (match layerPlatform with Some _ => true | None => false end).

(** A component of [this.components] with the [userData] keys
    [findElement] reads. *)
Record scene_component := SceneComponent {
  sc_element : element; sc_name : option string; sc_layer : option string
}.

(** [this.platforms] (layer name to platform) and [this.components]. *)
Record diagram := Diagram {
  platforms : list (string * element);
  components : list scene_component
}.

(** A [{type, name, layer}] identifier of the connection configuration. *)
Record identifier := Identifier {
  id_type : string; id_name : option string; id_layer : option string
}.

Definition opt_string_eqb (a b : option string) : bool :=
  match a, b with
  | Some x, Some y => String.eqb x y
  | None, None => true
  | _, _ => false
  end.

Definition truthy_string (o : option string) : bool :=
  match o with Some s => negb (String.eqb s "") | None => false end.

(** [this.platforms[identifier.layer]]: the own keys of the object ([undefined]
    becomes the key ["undefined"]; keys of [Object.prototype] are not modelled). *)
Definition platform_lookup (ps : list (string * element)) (layer : option string) : option element :=
  let key := match layer with Some l => l | None => "undefined"%string end in
  match find (fun kv => String.eqb (fst kv) key) ps with Some kv => Some (snd kv) | None => None end.

Definition component_matches (idf : identifier) (c : scene_component) : bool :=
  opt_string_eqb (sc_name c) (id_name idf) ||
  (truthy_string (id_layer idf) && opt_string_eqb (sc_layer c) (id_layer idf)).

Definition findElement (d : diagram) (idf : identifier) : option element :=
  if String.eqb (id_type idf) "platform" then platform_lookup (platforms d) (id_layer idf)
  else if String.eqb (id_type idf) "component" then
    match find (component_matches idf) (components d) with
    | Some c => Some (sc_element c)
    | None => None
    end
  else None.

Record connection_config := ConnectionConfig {
  cc_from : identifier; cc_to : identifier; cc_options : add_options
}.

(** [Diagram3D.createConnections]: [ids n] and [rnd n] are what the [n]-th
    call of [addConnection] draws; a connection whose endpoint is missing is
    skipped (with a console warning). *)
Fixpoint createConnections_from (d : diagram) (ids : nat -> string) (rnd : nat -> R * R)
    (n : nat) (cs : list connection_config) (m : manager) : manager :=
  match cs with
  | [] => m
  | conn :: cs' =>
      match findElement d (cc_from conn), findElement d (cc_to conn) with
      | Some fromElement, Some toElement =>
          createConnections_from d ids rnd (S n) cs'
            (addConnection fromElement toElement (cc_options conn) (ids n)
                           (fst (rnd n)) (snd (rnd n)) m)
      | _, _ => createConnections_from d ids rnd n cs' m
      end
  end.

Definition createConnections (d : diagram) (ids : nat -> string) (rnd : nat -> R * R)
    (cs : list connection_config) (m : manager) : manager :=
  createConnections_from d ids rnd 0 cs m.

Definition endpoints_found (d : diagram) (conn : connection_config) : bool :=
  match findElement d (cc_from conn), findElement d (cc_to conn) with
  | Some _, Some _ => true
  | _, _ => false
  end.

(** [Diagram3D.toggleConnections]. *)
Definition toggleConnections (m : manager) : manager := setVisible (negb (visible m)) m.

(** Reversal of a Bézier curve: the same path traversed from its end. *)
Definition reverse_curve (c : curve3) : curve3 := Curve3 (cv3 c) (cv2 c) (cv1 c) (cv0 c).

(** * Properties *)

(** ** Cubic Bézier evaluation *)

Lemma CubicBezier_0 p0 p1 p2 p3 : CubicBezier 0 p0 p1 p2 p3 = p0.
Proof. unfold CubicBezier; ring. Qed.

Lemma CubicBezier_1 p0 p1 p2 p3 : CubicBezier 1 p0 p1 p2 p3 = p3.
Proof. unfold CubicBezier; ring. Qed.

Lemma getPoint_0 c : getPoint c 0 = cv0 c.
Proof.
  unfold getPoint; rewrite !CubicBezier_0; destruct (cv0 c); reflexivity.
Qed.

Lemma getPoint_1 c : getPoint c 1 = cv3 c.
Proof.
  unfold getPoint; rewrite !CubicBezier_1; destruct (cv3 c); reflexivity.
Qed.

(** A Bernstein combination of values no smaller than [m] is no smaller than
    [m] on [0, 1]. *)
Lemma CubicBezier_lower_bound m t p0 p1 p2 p3 :
  0 <= t <= 1 -> m <= p0 -> m <= p1 -> m <= p2 -> m <= p3 ->
  m <= CubicBezier t p0 p1 p2 p3.
Proof.
  intros [Ht0 Ht1] H0 H1 H2 H3; unfold CubicBezier.
  set (k := 1 - t).
  assert (Hk : 0 <= k) by (unfold k; lra).
  assert (Hsum : k * k * k + 3 * k * k * t + 3 * k * t * t + t * t * t = 1)
    by (unfold k; ring).
  assert (0 <= k * k * k * (p0 - m)) by (repeat apply Rmult_le_pos; lra).
  assert (0 <= 3 * k * k * t * (p1 - m)) by (repeat apply Rmult_le_pos; lra).
  assert (0 <= 3 * k * t * t * (p2 - m)) by (repeat apply Rmult_le_pos; lra).
  assert (0 <= t * t * t * (p3 - m)) by (repeat apply Rmult_le_pos; lra).
  assert (Hid : k * k * k * p0 + 3 * k * k * t * p1 + 3 * k * t * t * p2 + t * t * t * p3 - m
                = k * k * k * (p0 - m) + 3 * k * k * t * (p1 - m)
                  + 3 * k * t * t * (p2 - m) + t * t * t * (p3 - m))
    by (unfold k; ring).
  lra.
Qed.

Lemma createCurve_cases s e o :
  createCurve s e o = createArchitecturalCurve s e o \/
  createCurve s e o = createSmoothCurve s e o \/
  createCurve s e o = createSharpCurve s e o.
Proof.
  unfold createCurve; destruct (curveType o) as [ct|]; auto.
  destruct (String.eqb ct "smooth"); auto.
  destruct (String.eqb ct "sharp"); auto.
Qed.

Lemma createCurve_ends s e o :
  cv0 (createCurve s e o) = s /\ cv3 (createCurve s e o) = e.
Proof.
  destruct (createCurve_cases s e o) as [H|[H|H]]; rewrite H; split; reflexivity.
Qed.

(** ** Sign-following offsets *)

Lemma sign_offset (d h : R) :
  exists s, (s = 1 \/ s = -1) /\ 0 <= s * d /\
            (if Rgtb d 0 then h else - h) = s * h.
Proof.
  unfold Rgtb; destruct (Rlt_dec 0 d).
  - exists 1; repeat split; [left; reflexivity | lra | ring].
  - exists (-1); repeat split; [right; reflexivity | nra | ring].
Qed.

(** ** C1 *)

(** C1: for every pair of points and every style, the curve built by
    [createCurve] has the given start and end as first and last control
    points, and evaluating it at [t = 0] and [t = 1] gives them back
    exactly.  (Distinctness of the points and the curve type are not
    needed.) *)
Theorem createCurve_sample_endpoints (start end_ : vec3) (style : curve_options) :
  cv0 (createCurve start end_ style) = start /\
  cv3 (createCurve start end_ style) = end_ /\
  getPoint (createCurve start end_ style) 0 = start /\
  getPoint (createCurve start end_ style) 1 = end_.
Proof.
  destruct (createCurve_ends start end_ style) as [H0 H3].
  rewrite getPoint_0, getPoint_1, H0, H3; repeat split.
Qed.

(** ** C2 *)

(** C2: for a platform (a box of positive width and depth) and any target,
    the connection point lies on one of the four vertical side faces: on
    the X faces when [|dx| > |dz|], on the Z faces otherwise, the other
    horizontal coordinate clamped within the face, the height is the top of
    the box plus 0.1, and the point is not above the top centre. *)
Theorem platform_point_on_side_face (platform target : element)
    (Htype : etype platform = "platform"%string)
    (Hw : 0 < width (parameters (egeometry platform)))
    (Hd : 0 < depth (parameters (egeometry platform))) :
  let c := position platform in
  let prm := parameters (egeometry platform) in
  let dx := vx (position target) - vx c in
  let dz := vz (position target) - vz c in
  let r := getConnectionPoint platform target in
  vy r = vy c + height prm / 2 + 0.1 /\
  ((Rabs dz < Rabs dx /\
    (vx r = vx c + width prm / 2 \/ vx r = vx c - width prm / 2) /\
    vz c - depth prm / 2 <= vz r <= vz c + depth prm / 2) \/
   (Rabs dx <= Rabs dz /\
    (vz r = vz c + depth prm / 2 \/ vz r = vz c - depth prm / 2) /\
    vx c - width prm / 2 <= vx r <= vx c + width prm / 2)) /\
  (vx r <> vx c \/ vz r <> vz c).
Proof.
  intros c prm dx dz r.
  fold prm in Hw, Hd.
  unfold r, getConnectionPoint; rewrite Htype; simpl String.eqb; cbv iota.
  unfold getPlatformConnectionPoint; fold c prm dx dz.
  destruct (Rgtb (Rabs dx) (Rabs dz)) eqn:Hg; simpl.
  - apply Rgtb_spec in Hg.
    split; [reflexivity|]. split.
    + left; split; [exact Hg|]. split.
      * unfold Rgtb; destruct (Rlt_dec 0 dx); [left|right]; lra.
      * split; [apply Rplus_le_compat_l; apply Rmax_l|].
        apply Rplus_le_compat_l; apply Rmax_lub; [lra| apply Rmin_l].
    + left; unfold Rgtb; destruct (Rlt_dec 0 dx); lra.
  - assert (Hle : Rabs dx <= Rabs dz)
      by (destruct (Rlt_dec (Rabs dz) (Rabs dx)) as [Hl|Hl];
          [apply Rgtb_spec in Hl; congruence | lra]).
    split; [reflexivity|]. split.
    + right; split; [exact Hle|]. split.
      * unfold Rgtb; destruct (Rlt_dec 0 dz); [left|right]; lra.
      * split; [apply Rplus_le_compat_l; apply Rmax_l|].
        apply Rplus_le_compat_l; apply Rmax_lub; [lra| apply Rmin_l].
    + right; unfold Rgtb; destruct (Rlt_dec 0 dz); lra.
Qed.

Lemma platform_point_on_side_face_witness :
  etype platformP1 = "platform"%string /\ 0 < width (parameters (egeometry platformP1)) /\
  0 < depth (parameters (egeometry platformP1)) /\
  vy (getConnectionPoint platformP1 platformP2) = 0 + 0.2 / 2 + 0.1.
Proof.
  assert (Hw : 0 < width (parameters (egeometry platformP1))) by (simpl; lra).
  assert (Hd : 0 < depth (parameters (egeometry platformP1))) by (simpl; lra).
  split; [reflexivity|]. split; [exact Hw|]. split; [exact Hd|].
  exact (proj1 (platform_point_on_side_face platformP1 platformP2 eq_refl Hw Hd)).
Defined.

(** ** C3 *)

(** C3: a standalone component (type ['component'], no platform, not a
    database cylinder) attaches at the centre of the face of its measured
    bounding box picked by the largest of [|dx|], [|dy|], [|dz|]: the
    dominant coordinate is the centre plus or minus the exact half-extent,
    with the sign of the direction to the target, and the two other
    coordinates are the centre's. *)
Theorem standalone_point_face_center (cube target : element)
    (Htype : etype cube = "component"%string)
    (Hdb : isDatabaseComponent cube = false)
    (Hpl : hasPlataform cube = false) :
  let c := position cube in
  let bb := boundingBox (egeometry cube) in
  let halfWidth := (vx (bmax bb) - vx (bmin bb)) / 2 in
  let halfHeight := (vy (bmax bb) - vy (bmin bb)) / 2 in
  let halfDepth := (vz (bmax bb) - vz (bmin bb)) / 2 in
  let dx := vx (position target) - vx c in
  let dy := vy (position target) - vy c in
  let dz := vz (position target) - vz c in
  let r := getConnectionPoint cube target in
  (Rabs dy <= Rabs dx /\ Rabs dz <= Rabs dx /\
   exists s, (s = 1 \/ s = -1) /\ 0 <= s * dx /\ r = V3 (vx c + s * halfWidth) (vy c) (vz c)) \/
  (Rabs dx < Rabs dy /\ Rabs dz <= Rabs dy /\
   exists s, (s = 1 \/ s = -1) /\ 0 <= s * dy /\ r = V3 (vx c) (vy c + s * halfHeight) (vz c)) \/
  (Rabs dx < Rabs dz /\ Rabs dy < Rabs dz /\
   exists s, (s = 1 \/ s = -1) /\ 0 <= s * dz /\ r = V3 (vx c) (vy c) (vz c + s * halfDepth)).
Proof.
  intros c bb halfWidth halfHeight halfDepth dx dy dz r.
  unfold r, getConnectionPoint; rewrite Htype; simpl String.eqb; cbv iota.
  unfold getComponentConnectionPoint; rewrite Hdb, Hpl; simpl negb; cbv iota.
  unfold getStandaloneCubeConnectionPoint; fold c bb halfWidth halfHeight halfDepth dx dy dz.
  destruct (Rgeb (Rabs dx) (Rabs dy)) eqn:H1; destruct (Rgeb (Rabs dx) (Rabs dz)) eqn:H2;
  destruct (Rgeb (Rabs dy) (Rabs dx)) eqn:H3; destruct (Rgeb (Rabs dy) (Rabs dz)) eqn:H4;
  simpl andb; cbv iota;
  repeat match goal with
         | H : Rgeb _ _ = true |- _ => apply Rgeb_spec in H
         | H : Rgeb ?a ?b = false |- _ =>
             assert (a < b) by (destruct (Rle_dec b a) as [Hl|Hl];
                                [apply Rgeb_spec in Hl; congruence | lra]); clear H
         end;
  first
    [ left; split; [lra|]; split; [lra|];
      destruct (sign_offset dx halfWidth) as (s & Hs & Hsd & He);
      exists s; repeat split; auto; rewrite He; reflexivity
    | right; left; split; [lra|]; split; [lra|];
      destruct (sign_offset dy halfHeight) as (s & Hs & Hsd & He);
      exists s; repeat split; auto; rewrite He; reflexivity
    | right; right; split; [lra|]; split; [lra|];
      destruct (sign_offset dz halfDepth) as (s & Hs & Hsd & He);
      exists s; repeat split; auto; rewrite He; reflexivity ].
Qed.

Lemma standalone_point_face_center_witness :
  etype hubCube = "component"%string /\ isDatabaseComponent hubCube = false /\
  hasPlataform hubCube = false /\
  (exists s, (s = 1 \/ s = -1) /\
     getConnectionPoint hubCube (node_at (V3 5 1 2)) = V3 (0 + s * ((0.83 - -0.83) / 2)) 0.75 0).
Proof.
  split; [reflexivity|]. split; [reflexivity|]. split; [reflexivity|].
  destruct (standalone_point_face_center hubCube (node_at (V3 5 1 2)) eq_refl eq_refl eq_refl)
    as [(_ & _ & s & Hs & _ & He) | [(Ha & Hb & _) | (Ha & Hb & _)]].
  - exists s; split; [exact Hs | exact He].
  - exfalso; simpl in Ha; rewrite !Rabs_right in Ha by lra; lra.
  - exfalso; simpl in Ha; rewrite !Rabs_right in Ha by lra; lra.
Defined.

(** ** C4 *)

Lemma sqrt_sum_sq_pos dx dz : 0 < sqrt (dx * dx + dz * dz) -> dx * dx + dz * dz > 0.
Proof.
  intros H. destruct (Rle_lt_dec (dx * dx + dz * dz) 0) as [Hle|Hlt]; [|lra].
  rewrite sqrt_neg_0 in H by exact Hle; lra.
Qed.

(** C4, as stated, fails when the target coincides with the cylinder's
    centre: the horizontal distance is zero and [|dy|] equals it, yet the
    point returned is the centre, not a cap centre. *)
Lemma cylinder_coincident_target_not_cap :
  getConnectionPoint dbCylinder (node_at (V3 2 0 (-4))) = V3 2 0 (-4) /\
  ~ (vy (getConnectionPoint dbCylinder (node_at (V3 2 0 (-4)))) = 0 + cylinder_height / 2 \/
     vy (getConnectionPoint dbCylinder (node_at (V3 2 0 (-4)))) = 0 - cylinder_height / 2).
Proof.
  assert (Hp : getConnectionPoint dbCylinder (node_at (V3 2 0 (-4))) = V3 2 0 (-4)).
  { unfold getConnectionPoint; simpl String.eqb; cbv iota.
    unfold getComponentConnectionPoint; simpl isDatabaseComponent; cbv iota.
    unfold getCylinderConnectionPoint; simpl.
    replace (2 - 2) with 0 by ring. replace (-4 - -4) with 0 by ring.
    replace (0 - 0) with 0 by ring. replace (0 * 0 + 0 * 0) with 0 by ring.
    rewrite sqrt_0, Rabs_R0.
    destruct (Rgtb 0 0) eqn:H; [apply Rgtb_spec in H; lra|]. reflexivity. }
  split; [exact Hp|]. rewrite Hp; simpl; unfold cylinder_height; lra.
Qed.

Lemma cylinder_point_general (cyl target : element)
    (Htype : etype cyl = "component"%string)
    (Hdb : isDatabaseComponent cyl = true) :
  let c := position cyl in
  let dx := vx (position target) - vx c in
  let dy := vy (position target) - vy c in
  let dz := vz (position target) - vz c in
  let h := sqrt (dx * dx + dz * dz) in
  let r := getConnectionPoint cyl target in
  (h < Rabs dy /\
   exists s, (s = 1 \/ s = -1) /\ 0 < s * dy /\
             r = V3 (vx c) (vy c + s * (cylinder_height / 2)) (vz c)) \/
  (Rabs dy <= h /\ 0 < h /\
   r = V3 (vx c + dx / h * cylinder_radius) (vy c) (vz c + dz / h * cylinder_radius) /\
   (vx r - vx c) * (vx r - vx c) + (vz r - vz c) * (vz r - vz c)
     = cylinder_radius * cylinder_radius) \/
  (dx = 0 /\ dy = 0 /\ dz = 0 /\ r = c).
Proof.
  intros c dx dy dz h r.
  assert (Hh0 : 0 <= h) by apply sqrt_pos.
  unfold r, getConnectionPoint; rewrite Htype; simpl String.eqb; cbv iota.
  unfold getComponentConnectionPoint; rewrite Hdb; cbv iota.
  unfold getCylinderConnectionPoint; fold c dx dy dz h.
  destruct (Rgtb (Rabs dy) h) eqn:E1.
  - apply Rgtb_spec in E1. left. split; [exact E1|].
    unfold Rgtb; destruct (Rlt_dec 0 dy).
    + exists 1; repeat split; [left; reflexivity| lra | f_equal; ring].
    + assert (dy < 0).
      { destruct (Rcase_abs dy) as [Hn|Hn]; [exact Hn|].
        rewrite Rabs_right in E1 by exact Hn; lra. }
      exists (-1); repeat split; [right; reflexivity| lra | f_equal; ring].
  - assert (E1' : Rabs dy <= h)
      by (destruct (Rlt_dec h (Rabs dy)) as [Hl|Hl];
          [apply Rgtb_spec in Hl; congruence | lra]).
    destruct (Rgtb h 0) eqn:E2.
    + apply Rgtb_spec in E2. right; left. repeat split; try assumption.
      simpl.
      assert (Hsq : h * h = dx * dx + dz * dz)
        by (unfold h; apply sqrt_sqrt; nra).
      replace (vx c + dx / h * cylinder_radius - vx c) with (dx / h * cylinder_radius) by ring.
      replace (vz c + dz / h * cylinder_radius - vz c) with (dz / h * cylinder_radius) by ring.
      replace (dx / h * cylinder_radius * (dx / h * cylinder_radius)
               + dz / h * cylinder_radius * (dz / h * cylinder_radius))
        with ((dx * dx + dz * dz) / (h * h) * (cylinder_radius * cylinder_radius))
        by (field; lra).
      rewrite <- Hsq. field; lra.
    + assert (Hh : h = 0)
        by (destruct (Rlt_dec 0 h) as [Hl|Hl];
            [apply Rgtb_spec in Hl; congruence | lra]).
      assert (Hs : dx * dx + dz * dz = 0)
        by (apply sqrt_eq_0; [nra | exact Hh]).
      assert (Hdy : dy = 0)
        by (rewrite Hh in E1'; pose proof (Rabs_pos dy);
            destruct (Rcase_abs dy) as [Hn|Hn];
            [rewrite Rabs_left in E1' by exact Hn | rewrite Rabs_right in E1' by exact Hn]; lra).
      right; right. repeat split; [nra | exact Hdy | nra].
Qed.

(** C4 (amended): a database component resolves with the fixed radius 0.9
    and height 1.8.  When [|dy|] exceeds the horizontal distance [h] the
    point is the top or bottom cap centre (centre y plus or minus 0.9, with
    the sign of [dy]); otherwise, when [h > 0], it is the centre plus
    [0.9 * (dx, dz) / h], on the side surface; when the target coincides
    with the centre the centre itself is returned.  In the scenario of a
    cylinder at (2,0,-4) and a target at (4,0,-1) this is the centre plus
    [0.9 * (2, 3) / sqrt 13]. *)
Theorem cylinder_point_cases (cyl target : element)
    (Htype : etype cyl = "component"%string)
    (Hdb : isDatabaseComponent cyl = true) :
  (let c := position cyl in
   let dx := vx (position target) - vx c in
   let dy := vy (position target) - vy c in
   let dz := vz (position target) - vz c in
   let h := sqrt (dx * dx + dz * dz) in
   let r := getConnectionPoint cyl target in
   (h < Rabs dy /\
    exists s, (s = 1 \/ s = -1) /\ 0 < s * dy /\
              r = V3 (vx c) (vy c + s * (cylinder_height / 2)) (vz c)) \/
   (Rabs dy <= h /\ 0 < h /\
    r = V3 (vx c + dx / h * cylinder_radius) (vy c) (vz c + dz / h * cylinder_radius) /\
    (vx r - vx c) * (vx r - vx c) + (vz r - vz c) * (vz r - vz c)
      = cylinder_radius * cylinder_radius) \/
   (dx = 0 /\ dy = 0 /\ dz = 0 /\ r = c)) /\
  getConnectionPoint dbCylinder (node_at (V3 4 0 (-1)))
    = V3 (2 + 2 / sqrt 13 * 0.9) 0 (-4 + 3 / sqrt 13 * 0.9).
Proof.
  split; [exact (cylinder_point_general cyl target Htype Hdb)|].
  destruct (cylinder_point_general dbCylinder (node_at (V3 4 0 (-1))) eq_refl eq_refl)
    as [(Hlt & _) | [(_ & _ & Hr & _) | (Hx & _)]];
    simpl in *; replace (4 - 2) with 2 in * by ring; replace (-1 - -4) with 3 in * by ring;
    replace (2 * 2 + 3 * 3) with 13 in * by ring.
  - replace (0 - 0) with 0 in Hlt by ring. rewrite Rabs_R0 in Hlt.
    pose proof (sqrt_pos 13); lra.
  - rewrite Hr; unfold cylinder_radius; reflexivity.
  - lra.
Qed.

Lemma cylinder_point_cases_witness :
  etype dbCylinder = "component"%string /\ isDatabaseComponent dbCylinder = true /\
  getConnectionPoint dbCylinder (node_at (V3 4 0 (-1)))
    = V3 (2 + 2 / sqrt 13 * 0.9) 0 (-4 + 3 / sqrt 13 * 0.9).
Proof.
  split; [reflexivity|]. split; [reflexivity|].
  exact (proj2 (cylinder_point_cases dbCylinder (node_at (V3 4 0 (-1))) eq_refl eq_refl)).
Defined.

(** ** C5 *)

(** C5, as stated, fails: for level endpoints (0,0,0) and (2,0,0) with
    [verticalOffset = 0.8] the curve never rises 0.8 above them; its highest
    point is 0.42. *)
Lemma architectural_apex_below_curveHeight :
  0.42 < Rmax 0 0 + Rmax 0.8 (0.3 * Rabs (0 - 0)) /\
  (forall t, 0 <= t <= 1 ->
   vy (getPoint (createCurve (V3 0 0 0) (V3 2 0 0) (archOptions 0.8)) t) <= 0.42).
Proof.
  split.
  { replace (0 - 0) with 0 by ring. rewrite Rabs_R0, Rmax_left by lra.
    replace (0.3 * 0) with 0 by ring. rewrite Rmax_left by lra. lra. }
  intros t Ht.
  simpl; unfold CubicBezier.
  replace (0 - 0) with 0 by ring. rewrite Rabs_R0.
  replace (0 * 0.3) with 0 by ring. rewrite Rmax_left by lra.
  pose proof (Rle_0_sqr (t - 1 / 2)); unfold Rsqr in *; nra.
Qed.

(** C5 (amended): with [h = max(verticalOffset, 0.3 * |end.y - start.y|)]
    ([verticalOffset] defaulting to 0.8), the architectural curve runs from
    start to end through the control points placed 60% of the way from each
    endpoint toward the horizontal midpoint, at [0.7 * h] above their own
    endpoint; [h >= verticalOffset] and [h >= 0.3 * |dy|].  The midpoint at
    height [max(start.y, end.y) + h] is a construction point that the curve
    does not reach: for endpoints at equal height the curve's highest point
    is [0.525 * h] above them, attained at [t = 1/2]. *)
Theorem architectural_curve_shape (start end_ : vec3) (o : curve_options) :
  let vo := with_default (verticalOffset o) 0.8 in
  let h := Rmax vo (Rabs (vy end_ - vy start) * 0.3) in
  let mx := (vx start + vx end_) / 2 in
  let mz := (vz start + vz end_) / 2 in
  let c := createArchitecturalCurve start end_ o in
  vo <= h /\ 0.3 * Rabs (vy end_ - vy start) <= h /\
  cv0 c = start /\ cv3 c = end_ /\
  cv1 c = V3 (vx start + (mx - vx start) * 0.6) (vy start + h * 0.7)
             (vz start + (mz - vz start) * 0.6) /\
  cv2 c = V3 (vx end_ + (mx - vx end_) * 0.6) (vy end_ + h * 0.7)
             (vz end_ + (mz - vz end_) * 0.6) /\
  (vy start = vy end_ ->
   (forall t, 0 <= t <= 1 -> vy (getPoint c t) <= vy start + 0.525 * h) /\
   vy (getPoint c (1 / 2)) = vy start + 0.525 * h).
Proof.
  intros vo h mx mz c.
  assert (Hh1 : vo <= h) by apply Rmax_l.
  assert (Hh2 : Rabs (vy end_ - vy start) * 0.3 <= h) by apply Rmax_r.
  assert (Hh0 : 0 <= h) by (pose proof (Rabs_pos (vy end_ - vy start)); lra).
  split; [exact Hh1|]. split; [lra|].
  split; [reflexivity|]. split; [reflexivity|].
  split; [reflexivity|]. split; [reflexivity|].
  intros Hy. unfold c, getPoint, createArchitecturalCurve; fold vo; simpl cv0; simpl cv1;
  simpl cv2; simpl cv3; simpl vy; fold h. rewrite <- Hy.
  split.
  - intros t Ht. unfold CubicBezier.
    assert (Hq : 0 <= h * ((t - 1 / 2) * (t - 1 / 2)))
      by (apply Rmult_le_pos; [exact Hh0 | apply Rle_0_sqr]).
    assert (Hid : (1 - t) * (1 - t) * (1 - t) * vy start
                  + 3 * (1 - t) * (1 - t) * t * (vy start + h * 0.7)
                  + 3 * (1 - t) * t * t * (vy start + h * 0.7) + t * t * t * vy start
                  = vy start + 0.525 * h - 2.1 * (h * ((t - 1 / 2) * (t - 1 / 2))))
      by (replace 0.525 with (21 / 40) by lra; replace 2.1 with (21 / 10) by lra;
          replace 0.7 with (7 / 10) by lra; field).
    rewrite Hid; lra.
  - unfold CubicBezier.
    replace 0.525 with (21 / 40) by lra; replace 0.7 with (7 / 10) by lra; field.
Qed.

(** ** C6 *)

Lemma with_default_nonneg (o : option R) (d : R) :
  (forall v, o = Some v -> 0 <= v) -> 0 <= d -> 0 <= with_default o d.
Proof. intros H Hd; destruct o as [v|]; simpl; [apply H|]; auto. Qed.

(** C6: with a non-negative (or absent) [verticalOffset], every point of
    the curve of each of the three types, for [t] in [0, 1], is at least as
    high as the lower endpoint (the tolerance is not needed). *)
Theorem createCurve_never_below_lower_endpoint (start end_ : vec3) (style : curve_options)
    (Hvo : forall v, verticalOffset style = Some v -> 0 <= v)
    (t : R) (Ht : 0 <= t <= 1) :
  Rmin (vy start) (vy end_) <= vy (getPoint (createCurve start end_ style) t).
Proof.
  pose proof (Rmin_l (vy start) (vy end_)) as Hs.
  pose proof (Rmin_r (vy start) (vy end_)) as He.
  destruct (createCurve_cases start end_ style) as [H|[H|H]]; rewrite H;
    unfold getPoint; simpl vy; apply CubicBezier_lower_bound; try exact Ht;
    unfold createArchitecturalCurve, createSmoothCurve, createSharpCurve,
      calculateControlPoint1, calculateControlPoint2; simpl; try lra.
  - assert (0 <= Rmax (with_default (verticalOffset style) 0.8)
                      (Rabs (vy end_ - vy start) * 0.3))
      by (eapply Rle_trans; [|apply Rmax_r];
          pose proof (Rabs_pos (vy end_ - vy start)); lra).
    lra.
  - assert (0 <= Rmax (with_default (verticalOffset style) 0.8)
                      (Rabs (vy end_ - vy start) * 0.3))
      by (eapply Rle_trans; [|apply Rmax_r];
          pose proof (Rabs_pos (vy end_ - vy start)); lra).
    lra.
  - pose proof (with_default_nonneg (verticalOffset style) 0.6 Hvo ltac:(lra)); lra.
  - pose proof (with_default_nonneg (verticalOffset style) 0.6 Hvo ltac:(lra)); lra.
  - pose proof (with_default_nonneg (verticalOffset style) 0.4 Hvo ltac:(lra)); lra.
  - pose proof (with_default_nonneg (verticalOffset style) 0.4 Hvo ltac:(lra)); lra.
Qed.

Lemma createCurve_never_below_lower_endpoint_witness :
  (forall v, verticalOffset (CurveOptions None (Some 0.6) (Some 0.3) (Some "smooth"%string)) = Some v -> 0 <= v) /\
  0 <= 1 / 2 <= 1 /\
  Rmin 1 0 <= vy (getPoint (createCurve (V3 0 1 0) (V3 3 0 4)
                             (CurveOptions None (Some 0.6) (Some 0.3) (Some "smooth"%string))) (1 / 2)).
Proof.
  assert (Hvo : forall v, verticalOffset (CurveOptions None (Some 0.6) (Some 0.3) (Some "smooth"%string)) = Some v -> 0 <= v)
    by (simpl; intros v Hv; injection Hv as <-; lra).
  assert (Ht : 0 <= 1 / 2 <= 1) by lra.
  split; [exact Hvo|]. split; [exact Ht|].
  exact (createCurve_never_below_lower_endpoint (V3 0 1 0) (V3 3 0 4) _ Hvo (1 / 2) Ht).
Defined.

(** ** C7 *)

Lemma updateAnimations_enabled g m :
  animationEnabled m = true ->
  animationEnabled (updateAnimations g m) = true /\
  animationParticles (updateAnimations g m) = map (advance g) (animationParticles m).
Proof. intros H; unfold updateAnimations; rewrite H; split; reflexivity. Qed.

Lemma ticks_particles g n m :
  animationEnabled m = true ->
  animationEnabled (ticks g n m) = true /\
  animationParticles (ticks g n m) = map (Nat.iter n (advance g)) (animationParticles m).
Proof.
  intros H; induction n as [|n IH]; simpl.
  - split; [exact H|]. symmetry; apply map_id.
  - destruct IH as [IH1 IH2].
    destruct (updateAnimations_enabled g (ticks g n m) IH1) as [H1 H2].
    unfold ticks in *; simpl; split; [exact H1|].
    rewrite H2, IH2, map_map; reflexivity.
Qed.

Lemma iter_advance g n p :
  pconnectionId (Nat.iter n (advance g) p) = pconnectionId p /\
  pcurve (Nat.iter n (advance g) p) = pcurve p /\
  speed (Nat.iter n (advance g) p) = speed p /\
  progress (Nat.iter n (advance g) p) = Nat.iter n (progress_step (speed p)) (progress p) /\
  (n <> 0%nat ->
   pposition (Nat.iter n (advance g) p)
     = g (pcurve p) (progress (Nat.iter n (advance g) p))).
Proof.
  induction n as [|n (IH1 & IH2 & IH3 & IH4 & _)]; simpl.
  - repeat split; intros; congruence.
  - set (q := Nat.iter n (advance g) p) in *.
    unfold advance; simpl.
    rewrite IH1, IH2, IH3, IH4. repeat split.
Qed.

Lemma progress_step_iter_no_wrap s x n :
  0 <= s -> x + INR n * s < 1 -> Nat.iter n (progress_step s) x = x + INR n * s.
Proof.
  intros Hs; induction n as [|n IH]; intros Hn.
  - simpl; ring.
  - rewrite S_INR in Hn. simpl Nat.iter.
    rewrite IH by nra.
    unfold progress_step; destruct (Rgeb (x + INR n * s + s) 1) eqn:E.
    + apply Rgeb_spec in E; lra.
    + rewrite S_INR; ring.
Qed.

Lemma progress_step_iter_range s x n :
  0 <= s -> 0 <= x < 1 -> 0 <= Nat.iter n (progress_step s) x < 1.
Proof.
  intros Hs Hx; induction n as [|n IH]; simpl Nat.iter; [exact Hx|].
  set (y := Nat.iter n (progress_step s) x) in *.
  unfold progress_step; destruct (Rgeb (y + s) 1) eqn:E.
  - split; lra.
  - split; [lra|]. destruct (Rle_dec 1 (y + s)) as [Hl|Hl];
      [apply Rgeb_spec in Hl; congruence | lra].
Qed.

(** C7, as stated, fails: a particle at progress 0.99 with speed 0.014
    moves to progress 0 on the next frame, while [(0.99 + 0.014) mod 1] is
    0.004 (0 differs from [0.99 + 1 * 0.014] by no integer). *)
Lemma tick_resets_progress_instead_of_wrapping :
  map progress (animationParticles flowDemo) = [0.99] /\
  map speed (animationParticles flowDemo) = [0.008 + 0.5 * 0.012] /\
  (forall g, map progress (animationParticles (ticks g 1 flowDemo)) = [0]) /\
  ~ (exists k : Z, 0 = 0.99 + INR 1 * (0.008 + 0.5 * 0.012) - IZR k).
Proof.
  split; [reflexivity|]. split; [reflexivity|]. split.
  - intros g. unfold ticks; simpl Nat.iter. unfold updateAnimations; simpl animationEnabled.
    cbv iota. simpl animationParticles. simpl map. unfold advance; simpl progress; simpl speed.
    destruct (Rgeb (0.99 + (0.008 + 0.5 * 0.012)) 1) eqn:E; [reflexivity|].
    exfalso; destruct (Rle_dec 1 (0.99 + (0.008 + 0.5 * 0.012))) as [Hl|Hl];
      [apply Rgeb_spec in Hl; congruence | lra].
  - intros [k Hk]. simpl INR in Hk.
    destruct (Z.le_gt_cases k 1) as [Hk1|Hk1].
    + apply IZR_le in Hk1; lra.
    + assert (Hk2 : (2 <= k)%Z) by lia. apply IZR_le in Hk2; lra.
Qed.

(** C7 (amended): with animation disabled a frame changes nothing.  With
    animation enabled, each frame adds the particle's speed to its progress
    and, when the sum reaches 1, resets the progress to exactly 0 (the
    excess is dropped, not carried), then places the particle at the curve
    sample for the new progress.  Hence after [n] frames the progress is
    [p + n * s] as long as that stays below 1, and a progress starting in
    [0, 1) with a non-negative speed stays in [0, 1). *)
Theorem updateAnimations_progress (g : curve3 -> R -> vec3) :
  (forall m, animationEnabled m = false -> updateAnimations g m = m) /\
  (forall m n k p,
     animationEnabled m = true -> nth_error (animationParticles m) k = Some p ->
     exists p', nth_error (animationParticles (ticks g n m)) k = Some p' /\
       pconnectionId p' = pconnectionId p /\ pcurve p' = pcurve p /\ speed p' = speed p /\
       progress p' = Nat.iter n (progress_step (speed p)) (progress p) /\
       (n <> 0%nat -> pposition p' = g (pcurve p) (progress p')) /\
       (0 <= speed p -> progress p + INR n * speed p < 1 ->
        progress p' = progress p + INR n * speed p) /\
       (0 <= speed p -> 0 <= progress p < 1 -> 0 <= progress p' < 1)).
Proof.
  split.
  - intros m H; unfold updateAnimations; rewrite H; reflexivity.
  - intros m n k p Hen Hk.
    destruct (ticks_particles g n m Hen) as [_ Hp].
    exists (Nat.iter n (advance g) p).
    destruct (iter_advance g n p) as (H1 & H2 & H3 & H4 & H5).
    split; [rewrite Hp, nth_error_map, Hk; reflexivity|].
    repeat split; try assumption.
    + intros Hs Hlt; rewrite H4; apply progress_step_iter_no_wrap; assumption.
    + rewrite H4; apply progress_step_iter_range; assumption.
    + rewrite H4; apply progress_step_iter_range; assumption.
Qed.

(** ** C8 *)

(** The face selection shared by the two box-shaped component resolvers. *)
Lemma dominant_face (c : vec3) (dx dy dz hx hy hz : R) :
  let r :=
    if Rgeb (Rabs dx) (Rabs dy) && Rgeb (Rabs dx) (Rabs dz) then
      V3 (vx c + (if Rgtb dx 0 then hx else - hx)) (vy c) (vz c)
    else if Rgeb (Rabs dy) (Rabs dx) && Rgeb (Rabs dy) (Rabs dz) then
      V3 (vx c) (vy c + (if Rgtb dy 0 then hy else - hy)) (vz c)
    else
      V3 (vx c) (vy c) (vz c + (if Rgtb dz 0 then hz else - hz)) in
  (Rabs dy <= Rabs dx /\ Rabs dz <= Rabs dx /\
   exists s, (s = 1 \/ s = -1) /\ 0 <= s * dx /\ r = V3 (vx c + s * hx) (vy c) (vz c)) \/
  (Rabs dx < Rabs dy /\ Rabs dz <= Rabs dy /\
   exists s, (s = 1 \/ s = -1) /\ 0 <= s * dy /\ r = V3 (vx c) (vy c + s * hy) (vz c)) \/
  (Rabs dx < Rabs dz /\ Rabs dy < Rabs dz /\
   exists s, (s = 1 \/ s = -1) /\ 0 <= s * dz /\ r = V3 (vx c) (vy c) (vz c + s * hz)).
Proof.
  intros r; unfold r.
  destruct (Rgeb (Rabs dx) (Rabs dy)) eqn:H1; destruct (Rgeb (Rabs dx) (Rabs dz)) eqn:H2;
  destruct (Rgeb (Rabs dy) (Rabs dx)) eqn:H3; destruct (Rgeb (Rabs dy) (Rabs dz)) eqn:H4;
  simpl andb; cbv iota;
  repeat match goal with
         | H : Rgeb _ _ = true |- _ => apply Rgeb_spec in H
         | H : Rgeb ?a ?b = false |- _ =>
             assert (b > a) by (destruct (Rle_dec b a) as [Hl|Hl];
                                [apply Rgeb_spec in Hl; congruence | lra]); clear H
         end;
  first
    [ left; split; [lra|]; split; [lra|];
      destruct (sign_offset dx hx) as (s & Hs & Hsd & He);
      exists s; repeat split; auto; rewrite He; reflexivity
    | right; left; split; [lra|]; split; [lra|];
      destruct (sign_offset dy hy) as (s & Hs & Hsd & He);
      exists s; repeat split; auto; rewrite He; reflexivity
    | right; right; split; [lra|]; split; [lra|];
      destruct (sign_offset dz hz) as (s & Hs & Hsd & He);
      exists s; repeat split; auto; rewrite He; reflexivity ].
Qed.

Lemma component_dominant_face (e target : element)
    (Htype : etype e = "component"%string) (Hdb : isDatabaseComponent e = false) :
  let c := position e in
  let h := component_half_extents e in
  let dx := vx (position target) - vx c in
  let dy := vy (position target) - vy c in
  let dz := vz (position target) - vz c in
  let r := getConnectionPoint e target in
  (Rabs dy <= Rabs dx /\ Rabs dz <= Rabs dx /\
   exists s, (s = 1 \/ s = -1) /\ 0 <= s * dx /\ r = V3 (vx c + s * vx h) (vy c) (vz c)) \/
  (Rabs dx < Rabs dy /\ Rabs dz <= Rabs dy /\
   exists s, (s = 1 \/ s = -1) /\ 0 <= s * dy /\ r = V3 (vx c) (vy c + s * vy h) (vz c)) \/
  (Rabs dx < Rabs dz /\ Rabs dy < Rabs dz /\
   exists s, (s = 1 \/ s = -1) /\ 0 <= s * dz /\ r = V3 (vx c) (vy c) (vz c + s * vz h)).
Proof.
  intros c h dx dy dz r.
  unfold r, getConnectionPoint; rewrite Htype; simpl String.eqb; cbv iota.
  unfold getComponentConnectionPoint; rewrite Hdb; cbv iota.
  unfold h, component_half_extents.
  destruct (hasPlataform e); simpl negb; cbv iota.
  - exact (dominant_face c dx dy dz component_halfSize component_halfSize component_halfSize).
  - unfold getStandaloneCubeConnectionPoint.
    exact (dominant_face c dx dy dz _ _ _).
Qed.

(** C8, as stated, fails for platforms: with [|dx| = |dz| = 1] the platform
    of width 8 and depth 4 at the origin attaches on its +Z face at
    [x = 1], not on an X face ([x = 4] or [x = -4]). *)
Lemma platform_tie_prefers_z_face :
  Rabs (1 - 0) = Rabs (1 - 0) /\
  getConnectionPoint tiePlatform (node_at (V3 1 0 1)) = V3 1 (0 + 0.2 / 2 + 0.1) 2 /\
  ~ (1 = 0 + 8 / 2 \/ 1 = 0 - 8 / 2).
Proof.
  split; [reflexivity|]. split; [|lra].
  unfold getConnectionPoint; simpl String.eqb; cbv iota.
  unfold getPlatformConnectionPoint; simpl.
  replace (1 - 0) with 1 by ring. rewrite Rabs_R1.
  destruct (Rgtb 1 1) eqn:E; [apply Rgtb_spec in E; lra|].
  destruct (Rgtb 1 0) eqn:E'; [|destruct (Rlt_dec 0 1) as [Hl|Hl];
                                  [apply Rgtb_spec in Hl; congruence | lra]].
  rewrite Rmin_right by lra. rewrite Rmax_right by lra.
  f_equal; lra.
Qed.

(** C8 (amended): the two box-shaped component resolvers (on a platform,
    with the nominal half-size; standalone, with the measured half-extents)
    compare with [>=] and so break ties X over Y over Z; the platform
    resolver compares [|dx| > |dz|] strictly, so a tie [|dx| = |dz|]
    attaches on a Z face ([+Z] when [dz > 0], [-Z] otherwise), with [x]
    clamped to the face; each chosen face lies on the target's side. *)
Theorem dominance_tie_break :
  (forall e target,
     etype e = "component"%string -> isDatabaseComponent e = false ->
     let c := position e in
     let h := component_half_extents e in
     let dx := vx (position target) - vx c in
     let dy := vy (position target) - vy c in
     let dz := vz (position target) - vz c in
     let r := getConnectionPoint e target in
     (Rabs dy <= Rabs dx -> Rabs dz <= Rabs dx ->
      exists s, (s = 1 \/ s = -1) /\ 0 <= s * dx /\ r = V3 (vx c + s * vx h) (vy c) (vz c)) /\
     (Rabs dx < Rabs dy -> Rabs dz <= Rabs dy ->
      exists s, (s = 1 \/ s = -1) /\ 0 <= s * dy /\ r = V3 (vx c) (vy c + s * vy h) (vz c)) /\
     (Rabs dx < Rabs dz -> Rabs dy < Rabs dz ->
      exists s, (s = 1 \/ s = -1) /\ 0 <= s * dz /\ r = V3 (vx c) (vy c) (vz c + s * vz h))) /\
  (forall platform target,
     etype platform = "platform"%string ->
     let c := position platform in
     let prm := parameters (egeometry platform) in
     let dx := vx (position target) - vx c in
     let dz := vz (position target) - vz c in
     let r := getConnectionPoint platform target in
     (Rabs dz < Rabs dx ->
      (0 < dx -> vx r = vx c + width prm / 2) /\
      (dx <= 0 -> vx r = vx c - width prm / 2) /\
      vz r = vz c + Rmax (- (depth prm / 2)) (Rmin (depth prm / 2) dz)) /\
     (Rabs dx <= Rabs dz ->
      (0 < dz -> vz r = vz c + depth prm / 2) /\
      (dz <= 0 -> vz r = vz c - depth prm / 2) /\
      vx r = vx c + Rmax (- (width prm / 2)) (Rmin (width prm / 2) dx))).
Proof.
  split.
  - intros e target Htype Hdb c h dx dy dz r.
    destruct (component_dominant_face e target Htype Hdb)
      as [(Ha & Hb & s & Hs & Hsg & He) | [(Ha & Hb & s & Hs & Hsg & He) | (Ha & Hb & s & Hs & Hsg & He)]];
      fold c h dx dy dz r in Ha, Hb, Hsg, He;
      (split; [|split]); intros H1 H2;
      first [ exists s; split; [exact Hs|]; split; [exact Hsg | exact He] | exfalso; lra ].
  - intros platform target Htype c prm dx dz r.
    unfold r, getConnectionPoint; rewrite Htype; simpl String.eqb; cbv iota.
    unfold getPlatformConnectionPoint; fold c prm dx dz.
    split; intros Hcmp.
    + destruct (Rgtb (Rabs dx) (Rabs dz)) eqn:Hg;
        [|destruct (Rlt_dec (Rabs dz) (Rabs dx)) as [Hl|Hl];
          [apply Rgtb_spec in Hl; congruence | lra]].
      simpl; split; [|split; [|reflexivity]]; intros Hs;
        unfold Rgtb; destruct (Rlt_dec 0 dx); try lra; ring.
    + destruct (Rgtb (Rabs dx) (Rabs dz)) eqn:Hg; [apply Rgtb_spec in Hg; lra|].
      simpl; split; [|split; [|reflexivity]]; intros Hs;
        unfold Rgtb; destruct (Rlt_dec 0 dz); try lra; ring.
Qed.

(** ** C9 *)

Lemma in_map_cid_filter (x id : string) (l : list connection) :
  In x (map cid l) -> x <> id ->
  In x (map cid (filter (fun c => negb (String.eqb (cid c) id)) l)).
Proof.
  intros Hin Hne. apply in_map_iff in Hin as (c & <- & Hc).
  apply in_map. apply filter_In. split; [exact Hc|].
  destruct (String.eqb_spec (cid c) id); [contradiction | reflexivity].
Qed.

Lemma Forall_in_map_cid_app {A} (f : A -> string) (xs : list A) (l l' : list connection) :
  Forall (fun a => In (f a) (map cid l)) xs ->
  Forall (fun a => In (f a) (map cid (l ++ l'))) xs.
Proof.
  intros H; eapply Forall_impl; [|exact H].
  intros a Ha; rewrite map_app; apply in_or_app; left; exact Ha.
Qed.

Lemma spawnParticles_stored rnd conns index cs :
  Forall (fun p => In (pconnectionId p) (map cid conns)) (spawnParticles rnd conns index cs).
Proof.
  revert index; induction cs as [|c cs IH]; intros index; simpl; [constructor|].
  apply Forall_app; split; [|apply IH].
  destruct (nth_error conns index) as [conn|] eqn:E; [|constructor].
  constructor; [|constructor]. simpl.
  apply in_map. eapply nth_error_In; exact E.
Qed.

Lemma step_ids_stored g m o : ids_stored m -> ids_stored (step g m o).
Proof.
  intros [Hv Hp]; destruct o as [f t opts id r1 r2|id| |rnd|b|]; simpl.
  - unfold addConnection.
    set (conn := Connection id f t _ _).
    assert (Hnew : In id (map cid (connections m ++ [conn])))
      by (rewrite map_app; apply in_or_app; right; left; reflexivity).
    destruct (animationEnabled m); unfold createAnimationParticle; split; simpl;
      repeat (apply Forall_app; split);
      try (apply Forall_in_map_cid_app; assumption);
      repeat constructor; try exact Hnew;
      destruct (match ashowArrows opts with Some b => b | None => showArrows m end);
      repeat constructor; exact Hnew.
  - unfold removeConnection; split; simpl.
    + apply Forall_forall; intros v Hin. apply filter_In in Hin as [Hin Hne].
      apply in_map_cid_filter; [exact (proj1 (Forall_forall _ _) Hv v Hin)|].
      destruct (String.eqb_spec (vconnectionId v) id); [discriminate | assumption].
    + apply Forall_forall; intros p Hin. apply filter_In in Hin as [Hin Hne].
      apply in_map_cid_filter; [exact (proj1 (Forall_forall _ _) Hp p Hin)|].
      destruct (String.eqb_spec (pconnectionId p) id); [discriminate | assumption].
  - unfold updateAnimations; destruct (animationEnabled m); split; simpl; auto.
    apply Forall_map; eapply Forall_impl; [|exact Hp]; intros p Hin; exact Hin.
  - unfold toggleAnimation; split; simpl; [exact Hv|].
    destruct (negb (animationEnabled m)); [|constructor].
    apply Forall_app; split; [exact Hp | apply spawnParticles_stored].
  - split; assumption.
  - split; constructor.
Qed.

Lemma run_ids_stored g m ops : ids_stored m -> ids_stored (run g m ops).
Proof.
  revert m; induction ops as [|o ops IH]; intros m H; simpl; [exact H|].
  apply IH, step_ids_stored, H.
Qed.

Lemma filter_keep_all {A} (f : A -> bool) (l : list A) :
  Forall (fun a => f a = true) l -> filter f l = l.
Proof.
  induction 1 as [|a l Ha _ IH]; simpl; [reflexivity|]. rewrite Ha, IH; reflexivity.
Qed.

(** C9: in every manager reached from a fresh one by any sequence of calls,
    [removeConnection] with an id that no stored connection has leaves the
    manager unchanged: connections, particles, visual children and curves. *)
Theorem removeConnection_unknown_id_noop (g : curve3 -> R -> vec3)
    (animationEnabled0 showArrows0 : option bool) (base : curve_options)
    (ops : list op) (id : string)
    (Hunknown : ~ In id (map cid (connections
                  (run g (newConnectionManager animationEnabled0 showArrows0 base) ops)))) :
  removeConnection id (run g (newConnectionManager animationEnabled0 showArrows0 base) ops)
  = run g (newConnectionManager animationEnabled0 showArrows0 base) ops.
Proof.
  set (m := run g (newConnectionManager animationEnabled0 showArrows0 base) ops) in *.
  assert (Hinv : ids_stored m)
    by (apply run_ids_stored; split; constructor).
  destruct Hinv as [Hv Hp].
  assert (Hne : forall x, In x (map cid (connections m)) -> String.eqb x id = false)
    by (intros x Hx; destruct (String.eqb_spec x id); [subst; contradiction | reflexivity]).
  unfold removeConnection.
  rewrite (filter_keep_all _ (connectionGroup m)).
  2:{ eapply Forall_impl; [|exact Hv]; intros v Hin; rewrite Hne by exact Hin; reflexivity. }
  rewrite (filter_keep_all _ (animationParticles m)).
  2:{ eapply Forall_impl; [|exact Hp]; intros p Hin; rewrite Hne by exact Hin; reflexivity. }
  rewrite (filter_keep_all _ (connections m)).
  2:{ apply Forall_forall; intros c Hc; rewrite Hne by (apply in_map; exact Hc); reflexivity. }
  destruct m; reflexivity.
Qed.

Lemma removeConnection_unknown_id_noop_witness :
  ~ In "connection_b"%string
      (map cid (connections (run (fun _ _ => origin) defaultManager (firstn 1 reuseScenario)))) /\
  removeConnection "connection_b" (run (fun _ _ => origin) defaultManager (firstn 1 reuseScenario))
  = run (fun _ _ => origin) defaultManager (firstn 1 reuseScenario).
Proof.
  assert (H : ~ In "connection_b"%string
      (map cid (connections (run (fun _ _ => origin) defaultManager (firstn 1 reuseScenario)))))
    by (simpl; intros [Heq|[]]; discriminate).
  split; [exact H|].
  exact (removeConnection_unknown_id_noop (fun _ _ => origin) None None
           (CurveOptions None None None None) (firstn 1 reuseScenario) "connection_b" H).
Defined.

(** ** C10 *)

Lemma step_curves_length g m o :
  length (curves (step g m o)) = count_add (length (curves m)) o.
Proof.
  destruct o; simpl; try reflexivity.
  - unfold addConnection; destruct (animationEnabled m); simpl;
      rewrite length_app; simpl; lia.
  - unfold updateAnimations; destruct (animationEnabled m); reflexivity.
Qed.

Lemma run_curves_length g m ops :
  length (curves (run g m ops)) = fold_left count_add ops (length (curves m)).
Proof.
  revert m; induction ops as [|o ops IH]; intros m; simpl; [reflexivity|].
  rewrite IH, step_curves_length; reflexivity.
Qed.

(** C10: [removeConnection] never shrinks [curves]: from a fresh manager,
    the length of [curves] is the number of [addConnection] calls since the
    last [clear ()].  So after a removal [curves[i]] no longer matches
    [connections[i]]: adding two connections, removing the first and
    toggling animation off and on leaves a particle of the second
    connection running on the first connection's curve. *)
Theorem curves_never_shrink (g : curve3 -> R -> vec3) :
  (forall animationEnabled0 showArrows0 base ops,
     length (curves (run g (newConnectionManager animationEnabled0 showArrows0 base) ops))
     = adds_since_clear ops) /\
  (let m := run g defaultManager reuseScenario in
   map cid (connections m) = ["connection_b"%string] /\ length (curves m) = 2%nat /\
   exists p c, In p (animationParticles m) /\ In c (connections m) /\
     pconnectionId p = cid c /\ pcurve p <> ccurve c).
Proof.
  split.
  - intros ae sa base ops. rewrite run_curves_length. reflexivity.
  - intros m.
    set (cA := createCurve (getConnectionPoint (node_at (V3 0 0 0)) (node_at (V3 1 0 0)))
                           (getConnectionPoint (node_at (V3 1 0 0)) (node_at (V3 0 0 0)))
                           (merge_curve_options (CurveOptions None None None None) (archOptions 0.6))).
    set (cB := createCurve (getConnectionPoint (node_at (V3 0 0 0)) (node_at (V3 2 0 0)))
                           (getConnectionPoint (node_at (V3 2 0 0)) (node_at (V3 0 0 0)))
                           (merge_curve_options (CurveOptions None None None None) (archOptions 0.6))).
    assert (HcB : In (Connection "connection_b" (node_at (V3 0 0 0)) (node_at (V3 2 0 0)) cB
                        (merge_curve_options (CurveOptions None None None None) (archOptions 0.6)))
                     (connections m))
      by (simpl; left; reflexivity).
    split; [reflexivity|]. split; [reflexivity|].
    exists (Particle "connection_b" cA 0.5 (0.008 + 0.5 * 0.012) origin 1).
    eexists. split; [simpl; left; reflexivity|]. split; [exact HcB|].
    split; [reflexivity|]. simpl.
    intros Heq. apply (f_equal cv3) in Heq.
    unfold cA, cB in Heq. rewrite !(proj2 (createCurve_ends _ _ _)) in Heq.
    simpl in Heq. injection Heq as Hx. lra.
Qed.

(** * Further properties of the connection code *)

(** ** Curve geometry *)

Lemma CubicBezier_reverse t p0 p1 p2 p3 :
  CubicBezier t p0 p1 p2 p3 = CubicBezier (1 - t) p3 p2 p1 p0.
Proof. unfold CubicBezier; ring. Qed.

Lemma getPoint_reverse_curve c t : getPoint (reverse_curve c) t = getPoint c (1 - t).
Proof.
  unfold getPoint, reverse_curve; simpl.
  rewrite (CubicBezier_reverse t (vx (cv3 c))), (CubicBezier_reverse t (vy (cv3 c))),
    (CubicBezier_reverse t (vz (cv3 c))).
  reflexivity.
Qed.

Lemma distanceTo_sym a b : distanceTo a b = distanceTo b a.
Proof. unfold distanceTo, vlength, vsub; simpl; f_equal; ring. Qed.

Lemma createCurve_swap (start end_ : vec3) (style : curve_options) :
  createCurve end_ start style = reverse_curve (createCurve start end_ style).
Proof.
  assert (Harch : createArchitecturalCurve end_ start style
                  = reverse_curve (createArchitecturalCurve start end_ style)).
  { unfold createArchitecturalCurve, reverse_curve; cbn [cv0 cv1 cv2 cv3 vx vy vz].
    rewrite (Rabs_minus_sym (vy start) (vy end_)).
    f_equal; f_equal; lra. }
  assert (Hsmooth : createSmoothCurve end_ start style
                    = reverse_curve (createSmoothCurve start end_ style)).
  { unfold createSmoothCurve, reverse_curve; cbn [cv0 cv1 cv2 cv3].
    rewrite (distanceTo_sym end_ start). reflexivity. }
  assert (Hsharp : createSharpCurve end_ start style
                   = reverse_curve (createSharpCurve start end_ style)).
  { unfold createSharpCurve, reverse_curve; cbn [cv0 cv1 cv2 cv3 vx vy vz]. f_equal; f_equal; lra. }
  unfold createCurve; destruct (curveType style) as [ct|]; [|exact Harch].
  destruct (String.eqb ct "smooth"); [exact Hsmooth|].
  destruct (String.eqb ct "sharp"); [exact Hsharp | exact Harch].
Qed.

(** The connector from B to A is the connector from A to B traversed
    backwards, for every curve type and style. *)
Theorem createCurve_reversal (start end_ : vec3) (style : curve_options) (t : R) :
  getPoint (createCurve end_ start style) t = getPoint (createCurve start end_ style) (1 - t).
Proof. rewrite createCurve_swap; apply getPoint_reverse_curve. Qed.

Lemma CubicBezier_upper_bound M t p0 p1 p2 p3 :
  0 <= t <= 1 -> p0 <= M -> p1 <= M -> p2 <= M -> p3 <= M ->
  CubicBezier t p0 p1 p2 p3 <= M.
Proof.
  intros Ht H0 H1 H2 H3.
  assert (Hn : CubicBezier t p0 p1 p2 p3 = - CubicBezier t (- p0) (- p1) (- p2) (- p3))
    by (unfold CubicBezier; ring).
  rewrite Hn.
  pose proof (CubicBezier_lower_bound (- M) t (- p0) (- p1) (- p2) (- p3) Ht
                ltac:(lra) ltac:(lra) ltac:(lra) ltac:(lra)).
  lra.
Qed.

Lemma between_comb x y a :
  0 <= a <= 1 -> Rmin x y <= x + (y - x) * a <= Rmax x y.
Proof.
  intros Ha. unfold Rmin, Rmax; destruct (Rle_dec x y); split; nra.
Qed.

Lemma between_ends x y : Rmin x y <= x <= Rmax x y /\ Rmin x y <= y <= Rmax x y.
Proof. unfold Rmin, Rmax; destruct (Rle_dec x y); lra. Qed.

Ltac curve_between :=
  match goal with
  | |- Rmin ?x ?y <= ?e <= Rmax ?x ?y =>
      first
        [ pose proof (between_ends x y); lra
        | replace e with (x + (y - x) * 0.3) by (field || ring);
          apply between_comb; lra
        | replace e with (x + (y - x) * 0.7) by (field || ring);
          apply between_comb; lra ]
  end.

(** The architectural and sharp connectors never leave the horizontal
    rectangle spanned by their endpoints: for [t] in [0, 1], [x] and [z]
    stay between the endpoints' [x] and [z]. *)
Theorem architectural_sharp_within_footprint (start end_ : vec3) (style : curve_options)
    (t : R) (Ht : 0 <= t <= 1) :
  let pa := getPoint (createArchitecturalCurve start end_ style) t in
  let ps := getPoint (createSharpCurve start end_ style) t in
  Rmin (vx start) (vx end_) <= vx pa <= Rmax (vx start) (vx end_) /\
  Rmin (vz start) (vz end_) <= vz pa <= Rmax (vz start) (vz end_) /\
  Rmin (vx start) (vx end_) <= vx ps <= Rmax (vx start) (vx end_) /\
  Rmin (vz start) (vz end_) <= vz ps <= Rmax (vz start) (vz end_).
Proof.
  intros pa ps; unfold pa, ps, getPoint; simpl vx; simpl vz.
  repeat split;
    first [ apply CubicBezier_lower_bound | apply CubicBezier_upper_bound ];
    try exact Ht; simpl;
    match goal with
    | |- Rmin ?x ?y <= ?e => assert (Rmin x y <= e <= Rmax x y) by curve_between; lra
    | |- ?e <= Rmax ?x ?y => assert (Rmin x y <= e <= Rmax x y) by curve_between; lra
    end.
Qed.

Lemma architectural_sharp_within_footprint_witness :
  0 <= 1 / 2 <= 1 /\
  Rmin 0 4 <= vx (getPoint (createSharpCurve (V3 0 0 0) (V3 4 1 (-2)) (archOptions 0.6)) (1 / 2))
           <= Rmax 0 4.
Proof.
  assert (Ht : 0 <= 1 / 2 <= 1) by lra.
  split; [exact Ht|].
  exact (proj1 (proj2 (proj2 (architectural_sharp_within_footprint
                                (V3 0 0 0) (V3 4 1 (-2)) (archOptions 0.6) (1 / 2) Ht)))).
Defined.

(** With a non-negative (or absent) [verticalOffset], no connector of any
    of the three types rises above the higher endpoint by more than
    [max(verticalOffset or 0.8, 0.3 * |dy|)], where [dy] is the endpoints'
    height difference. *)
Theorem createCurve_headroom (start end_ : vec3) (style : curve_options)
    (Hvo : forall v, verticalOffset style = Some v -> 0 <= v)
    (t : R) (Ht : 0 <= t <= 1) :
  vy (getPoint (createCurve start end_ style) t)
  <= Rmax (vy start) (vy end_)
     + Rmax (with_default (verticalOffset style) 0.8) (Rabs (vy end_ - vy start) * 0.3).
Proof.
  set (h := Rmax (with_default (verticalOffset style) 0.8) (Rabs (vy end_ - vy start) * 0.3)).
  pose proof (Rmax_l (vy start) (vy end_)) as Hs.
  pose proof (Rmax_r (vy start) (vy end_)) as He.
  assert (Hh8 : with_default (verticalOffset style) 0.8 <= h) by apply Rmax_l.
  assert (Hh0 : 0 <= h).
  { pose proof (Rabs_pos (vy end_ - vy start)). unfold h.
    pose proof (Rmax_r (with_default (verticalOffset style) 0.8)
                       (Rabs (vy end_ - vy start) * 0.3)). lra. }
  assert (H6 : with_default (verticalOffset style) 0.6 <= h)
    by (destruct (verticalOffset style); simpl in *; lra).
  assert (H4 : with_default (verticalOffset style) 0.4 <= h)
    by (destruct (verticalOffset style); simpl in *; lra).
  assert (Hv6 : 0 <= with_default (verticalOffset style) 0.6)
    by (apply with_default_nonneg; [exact Hvo | lra]).
  assert (Hv4 : 0 <= with_default (verticalOffset style) 0.4)
    by (apply with_default_nonneg; [exact Hvo | lra]).
  destruct (createCurve_cases start end_ style) as [H|[H|H]]; rewrite H;
    unfold getPoint; cbn [vy cv0 cv1 cv2 cv3];
    apply CubicBezier_upper_bound; try exact Ht;
    unfold createArchitecturalCurve, createSmoothCurve, createSharpCurve,
      calculateControlPoint1, calculateControlPoint2;
    cbn [vy cv0 cv1 cv2 cv3]; fold h; lra.
Qed.

Lemma createCurve_headroom_witness :
  (forall v, verticalOffset (archOptions 0.6) = Some v -> 0 <= v) /\ 0 <= 1 / 2 <= 1 /\
  vy (getPoint (createCurve (V3 0 0 0) (V3 4 1 (-2)) (archOptions 0.6)) (1 / 2))
  <= Rmax 0 1 + Rmax 0.6 (Rabs (1 - 0) * 0.3).
Proof.
  assert (Hvo : forall v, verticalOffset (archOptions 0.6) = Some v -> 0 <= v).
  { intros v Hv; simpl in Hv; injection Hv as <-; lra. }
  assert (Ht : 0 <= 1 / 2 <= 1) by lra.
  split; [exact Hvo|]; split; [exact Ht|].
  exact (createCurve_headroom (V3 0 0 0) (V3 4 1 (-2)) (archOptions 0.6) Hvo (1 / 2) Ht).
Defined.

(** ** ConnectionManager *)

Lemma filter_drops_all {A} (f : A -> string) (id : string) (l : list A) :
  Forall (fun a => f a <> id) (filter (fun a => negb (String.eqb (f a) id)) l).
Proof.
  apply Forall_forall; intros a Ha; apply filter_In in Ha as [_ Ha].
  intros E; rewrite E, String.eqb_refl in Ha; discriminate.
Qed.

Lemma filter_twice {A} (f : A -> string) (id : string) (l : list A) :
  filter (fun a => negb (String.eqb (f a) id)) (filter (fun a => negb (String.eqb (f a) id)) l)
  = filter (fun a => negb (String.eqb (f a) id)) l.
Proof.
  apply filter_keep_all, Forall_forall; intros a Ha; apply filter_In in Ha as [_ Ha]; exact Ha.
Qed.

(** [removeConnection] leaves no curve or arrow, particle or connection
    record carrying the removed id, keeps the curve list as it is, and is
    idempotent. *)
Theorem removeConnection_purges_id (id : string) (m : manager) :
  let m' := removeConnection id m in
  Forall (fun v => vconnectionId v <> id) (connectionGroup m') /\
  Forall (fun p => pconnectionId p <> id) (animationParticles m') /\
  Forall (fun c => cid c <> id) (connections m') /\
  curves m' = curves m /\
  removeConnection id m' = m'.
Proof.
  intros m'; unfold m', removeConnection; cbn.
  split; [apply filter_drops_all|]. split; [apply filter_drops_all|].
  split; [apply filter_drops_all|]. split; [reflexivity|].
  rewrite !filter_twice; reflexivity.
Qed.

(** Adding a connection under an id no stored object carries and removing
    that id again gives back the manager, except that the new curve stays at
    the end of [curves]. *)
Theorem add_then_remove (fromE toE : element) (options : add_options) (id : string)
    (r1 r2 : R) (m : manager)
    (Hv : Forall (fun v => vconnectionId v <> id) (connectionGroup m))
    (Hp : Forall (fun p => pconnectionId p <> id) (animationParticles m))
    (Hc : Forall (fun c => cid c <> id) (connections m)) :
  removeConnection id (addConnection fromE toE options id r1 r2 m)
  = Manager (animationEnabled m) (showArrows m) (baseCurveOptions m) (visible m)
            (connectionGroup m) (animationParticles m) (connections m)
            (curves m ++ [createCurve (getConnectionPoint fromE toE) (getConnectionPoint toE fromE)
                                      (merge_curve_options (baseCurveOptions m) (acurve options))]).
Proof.
  assert (Keep : forall {A} (f : A -> string) (l : list A), Forall (fun a => f a <> id) l ->
            filter (fun a => negb (String.eqb (f a) id)) l = l).
  { intros A f l Hl; apply filter_keep_all; revert Hl; apply Forall_impl.
    intros a Ha; apply String.eqb_neq in Ha; rewrite Ha; reflexivity. }
  unfold addConnection;
    destruct (match ashowArrows options with Some b => b | None => showArrows m end);
    destruct (animationEnabled m);
    unfold createAnimationParticle, removeConnection; cbn [animationEnabled showArrows
      baseCurveOptions visible connectionGroup animationParticles connections curves];
    rewrite !filter_app, (Keep _ vconnectionId _ Hv), (Keep _ pconnectionId _ Hp),
      (Keep _ cid _ Hc);
    cbn [filter vconnectionId pconnectionId cid app]; rewrite !String.eqb_refl;
    cbn [negb]; rewrite !app_nil_r; reflexivity.
Qed.

Lemma add_then_remove_witness :
  let m := addConnection (node_at (V3 0 0 0)) (node_at (V3 2 0 0))
             (AddOptions (archOptions 0.6) None) "c0" 0.5 0.5
             (newConnectionManager None (Some true) (archOptions 0.6)) in
  let curve1 := createCurve (V3 0 0 0) (V3 1 0 0)
                  (merge_curve_options (archOptions 0.6) (archOptions 0.6)) in
  Forall (fun v => vconnectionId v <> "c1"%string) (connectionGroup m) /\
  Forall (fun p => pconnectionId p <> "c1"%string) (animationParticles m) /\
  Forall (fun c => cid c <> "c1"%string) (connections m) /\
  length (connectionGroup m) = 2%nat /\ length (animationParticles m) = 1%nat /\
  removeConnection "c1" (addConnection (node_at (V3 0 0 0)) (node_at (V3 1 0 0))
                           (AddOptions (archOptions 0.6) (Some true)) "c1" 0.5 0.5 m)
  = Manager true true (archOptions 0.6) true (connectionGroup m) (animationParticles m)
            (connections m) (curves m ++ [curve1]).
Proof.
  intros m curve1.
  assert (Hv : Forall (fun v => vconnectionId v <> "c1"%string) (connectionGroup m))
    by (cbn; repeat constructor; discriminate).
  assert (Hp : Forall (fun p => pconnectionId p <> "c1"%string) (animationParticles m))
    by (cbn; repeat constructor; discriminate).
  assert (Hc : Forall (fun c => cid c <> "c1"%string) (connections m))
    by (cbn; repeat constructor; discriminate).
  split; [exact Hv|]; split; [exact Hp|]; split; [exact Hc|].
  split; [reflexivity|]; split; [reflexivity|].
  exact (add_then_remove (node_at (V3 0 0 0)) (node_at (V3 1 0 0))
           (AddOptions (archOptions 0.6) (Some true)) "c1" 0.5 0.5 m Hv Hp Hc).
Defined.

(** [addConnection] stores one connection, under the drawn id, whose curve
    is the last entry of [curves] and runs from the point resolved on the
    source element (towards the target) to the point resolved on the target
    (towards the source); with animation on, the one new particle rides that
    curve. *)
Theorem addConnection_curve_between_resolved_points (fromE toE : element)
    (options : add_options) (id : string) (r1 r2 : R) (m : manager) :
  let m' := addConnection fromE toE options id r1 r2 m in
  exists curve opts,
    curves m' = curves m ++ [curve] /\
    connections m' = connections m ++ [Connection id fromE toE curve opts] /\
    getPoint curve 0 = getConnectionPoint fromE toE /\
    getPoint curve 1 = getConnectionPoint toE fromE /\
    map pcurve (animationParticles m')
      = map pcurve (animationParticles m) ++ (if animationEnabled m then [curve] else []).
Proof.
  intros m'.
  set (curve := createCurve (getConnectionPoint fromE toE) (getConnectionPoint toE fromE)
                  (merge_curve_options (baseCurveOptions m) (acurve options))).
  exists curve, (merge_curve_options (baseCurveOptions m) (acurve options)).
  destruct (createCurve_ends (getConnectionPoint fromE toE) (getConnectionPoint toE fromE)
              (merge_curve_options (baseCurveOptions m) (acurve options))) as [E0 E1].
  fold curve in E0, E1.
  unfold m', addConnection; fold curve;
    destruct (animationEnabled m); unfold createAnimationParticle; cbn;
    (split; [reflexivity|]; split; [reflexivity|]);
    (split; [rewrite getPoint_0, E0 | split; [rewrite getPoint_1, E1|]]);
    try reflexivity; rewrite ?map_app, ?app_nil_r; reflexivity.
Qed.

Lemma skipn_nth_error {A} (l : list A) (i : nat) (a : A) :
  nth_error l i = Some a -> skipn i l = a :: skipn (S i) l.
Proof.
  revert i; induction l as [|b l IH]; intros [|i] H; simpl in *; try discriminate.
  - injection H as ->; reflexivity.
  - apply IH; exact H.
Qed.

Lemma skipn_nth_error_None {A} (l : list A) (i : nat) :
  nth_error l i = None -> skipn i l = [].
Proof.
  intros H; apply nth_error_None in H; apply skipn_all2; exact H.
Qed.

Lemma spawnParticles_ids rnd conns index cs :
  map pconnectionId (spawnParticles rnd conns index cs)
  = map cid (firstn (length cs) (skipn index conns)).
Proof.
  revert index; induction cs as [|c cs IH]; intros index; [reflexivity|].
  simpl spawnParticles; rewrite map_app, IH; simpl length.
  destruct (nth_error conns index) as [conn|] eqn:E.
  - rewrite (skipn_nth_error conns index conn E); reflexivity.
  - rewrite (skipn_nth_error_None conns index E).
    rewrite skipn_all2 by (apply nth_error_None in E; lia).
    rewrite ?firstn_nil; reflexivity.
Qed.

Lemma spawnParticles_curves rnd conns index cs :
  map pcurve (spawnParticles rnd conns index cs)
  = firstn (length (skipn index conns)) cs.
Proof.
  revert index; induction cs as [|c cs IH]; intros index;
    [destruct (length (skipn index conns)); reflexivity|].
  simpl spawnParticles; rewrite map_app, IH.
  destruct (nth_error conns index) as [conn|] eqn:E.
  - rewrite (skipn_nth_error conns index conn E); reflexivity.
  - rewrite (skipn_nth_error_None conns index E).
    rewrite skipn_all2 by (apply nth_error_None in E; lia).
    rewrite ?firstn_nil; reflexivity.
Qed.

(** Turning animation back on with [toggleAnimation] (when no more
    connections than curves are stored) spawns one particle per stored
    connection, in order, and the particle of the [i]-th connection rides
    [curves[i]]; turning it off drops every particle. *)
Theorem toggleAnimation_respawn (rnd : nat -> R * R) (m : manager)
    (Hlen : (length (connections m) <= length (curves m))%nat) :
  let m' := toggleAnimation rnd m in
  animationEnabled m' = negb (animationEnabled m) /\
  (animationEnabled m = true -> animationParticles m' = []) /\
  (animationEnabled m = false ->
   map pconnectionId (animationParticles m')
     = map pconnectionId (animationParticles m) ++ map cid (connections m) /\
   map pcurve (animationParticles m')
     = map pcurve (animationParticles m) ++ firstn (length (connections m)) (curves m)).
Proof.
  intros m'; unfold m', toggleAnimation; cbn [animationEnabled animationParticles].
  split; [reflexivity|].
  split; intros E; rewrite E; cbn [negb]; [reflexivity|].
  rewrite !map_app, spawnParticles_ids, spawnParticles_curves, skipn_O.
  rewrite firstn_all2 by exact Hlen. split; reflexivity.
Qed.

Lemma toggleAnimation_respawn_witness :
  let m := addConnection (node_at (V3 0 0 0)) (node_at (V3 1 0 0))
             (AddOptions (archOptions 0.6) None) "a" 0.5 0.5
             (newConnectionManager (Some false) None (archOptions 0.6)) in
  (length (connections m) <= length (curves m))%nat /\
  map pconnectionId (animationParticles (toggleAnimation (fun _ => (0, 0)) m)) = ["a"%string].
Proof.
  intros m.
  assert (Hlen : (length (connections m) <= length (curves m))%nat) by (simpl; lia).
  split; [exact Hlen|].
  destruct (toggleAnimation_respawn (fun _ => (0, 0)) m Hlen) as [_ [_ H]].
  rewrite (proj1 (H eq_refl)); reflexivity.
Defined.

(** [removeConnection] keeps the removed connection's curve in [curves]
    while [toggleAnimation] pairs [curves[i]] with [connections[i]]: after
    adding A and B, removing A and switching animation off and on, the one
    particle carries B's id but rides A's curve. *)
Theorem toggle_after_remove_rides_removed_curve (g : curve3 -> R -> vec3)
    (m0 : manager) (fA tA fB tB : element) (oA oB : add_options) (a b : string)
    (rA1 rA2 rB1 rB2 : R) (rnd1 rnd2 : nat -> R * R)
    (Hab : a <> b) (Hen : animationEnabled m0 = true)
    (Hc : connections m0 = []) (Hcv : curves m0 = []) :
  let m := run g m0 [OpAdd fA tA oA a rA1 rA2; OpAdd fB tB oB b rB1 rB2; OpRemove a;
                     OpToggle rnd1; OpToggle rnd2] in
  map pconnectionId (animationParticles m) = [b] /\
  map pcurve (animationParticles m)
    = [createCurve (getConnectionPoint fA tA) (getConnectionPoint tA fA)
                   (merge_curve_options (baseCurveOptions m0) (acurve oA))].
Proof.
  intros m; unfold m, run.
  destruct m0 as [en sa base vis grp parts conns cvs]; cbn in Hen, Hc, Hcv; subst.
  apply String.eqb_neq in Hab.
  assert (Hba : String.eqb b a = false) by (rewrite String.eqb_sym; exact Hab).
  cbn; rewrite String.eqb_refl, Hba; cbn.
  split; reflexivity.
Qed.

Lemma toggle_after_remove_rides_removed_curve_witness :
  ("a" <> "b")%string /\
  let m := run (fun _ _ => origin) (newConnectionManager None None (archOptions 0.6))
             [OpAdd (node_at (V3 0 0 0)) (node_at (V3 4 0 0)) (AddOptions (archOptions 0.6) None) "a" 0 0;
              OpAdd (node_at (V3 0 0 0)) (node_at (V3 0 0 4)) (AddOptions (archOptions 0.6) None) "b" 0 0;
              OpRemove "a"; OpToggle (fun _ => (0, 0)); OpToggle (fun _ => (0, 0))] in
  map pconnectionId (animationParticles m) = ["b"%string].
Proof.
  assert (Hab : ("a" <> "b")%string) by discriminate.
  split; [exact Hab|].
  exact (proj1 (toggle_after_remove_rides_removed_curve (fun _ _ => origin)
                  (newConnectionManager None None (archOptions 0.6))
                  (node_at (V3 0 0 0)) (node_at (V3 4 0 0)) (node_at (V3 0 0 0)) (node_at (V3 0 0 4))
                  (AddOptions (archOptions 0.6) None) (AddOptions (archOptions 0.6) None) "a" "b"
                  0 0 0 0 (fun _ => (0, 0)) (fun _ => (0, 0)) Hab eq_refl eq_refl eq_refl)).
Defined.

(** [Diagram3D.toggleConnections] flips only the group's visibility, so two
    calls restore the manager. *)
Theorem toggleConnections_involutive (m : manager) :
  visible (toggleConnections m) = negb (visible m) /\
  toggleConnections (toggleConnections m) = m.
Proof.
  destruct m as [en sa base vis grp parts conns cvs]; unfold toggleConnections, setVisible; cbn.
  rewrite negb_involutive; split; reflexivity.
Qed.

(** ** Scene construction *)

Lemma prefix_app (a b s : string) :
  String.prefix (a ++ b) s = true -> String.prefix a s = true.
Proof.
  revert s; induction a as [|c a IH]; intros s H; [destruct s; reflexivity|].
  destruct s as [|c' s]; [discriminate|]. simpl in *.
  destruct (Ascii.ascii_dec c c'); [apply IH; exact H | discriminate].
Qed.

Lemma includes_app (s a b : string) : includes s (a ++ b) = true -> includes s a = true.
Proof.
  assert (Eq : forall s sub, includes s sub
                 = String.prefix sub s || match s with EmptyString => false | String _ s' => includes s' sub end)
    by (intros [|? ?] ?; reflexivity).
  induction s as [|c s IH]; intros H; rewrite Eq in H |- *; apply orb_true_iff in H as [H|H];
    apply orb_true_iff.
  - left; apply (prefix_app a b); exact H.
  - discriminate.
  - left; apply (prefix_app a b); exact H.
  - right; apply IH; exact H.
Qed.

(** [isDatabaseComponent] tests the lower-cased name (an absent name counts
    as empty) for the substrings airtable, excel, db, storage and data: the
    separate airtable/excel test and the keyword database (which contains
    data) change nothing. *)
Theorem isDatabaseComponent_substrings (componentName : option string) :
  let name := toLowerCase (match componentName with Some n => n | None => ""%string end) in
  Diagram3D_isDatabaseComponent componentName
  = includes name "airtable" || includes name "excel" || includes name "db"
    || includes name "storage" || includes name "data".
Proof.
  intros name; unfold Diagram3D_isDatabaseComponent; fold name.
  assert (Hdd : includes name "database" = true -> includes name "data" = true)
    by exact (includes_app name "data" "base").
  unfold databaseKeywords; cbn [existsb].
  destruct (includes name "airtable"), (includes name "excel"), (includes name "db"),
    (includes name "storage"), (includes name "data"), (includes name "database");
    cbn; try reflexivity; exfalso; discriminate (Hdd eq_refl).
Qed.

Lemma ascii_lower_idem (c : Ascii.ascii) : ascii_lower (ascii_lower c) = ascii_lower c.
Proof.
  destruct c as [b0 b1 b2 b3 b4 b5 b6 b7];
    destruct b0, b1, b2, b3, b4, b5, b6, b7; vm_compute; reflexivity.
Qed.

Lemma toLowerCase_idem (s : string) : toLowerCase (toLowerCase s) = toLowerCase s.
Proof. induction s as [|c s IH]; simpl; [reflexivity|]; rewrite ascii_lower_idem, IH; reflexivity. Qed.

(** The classification ignores case: lower-casing a name first does not
    change it. *)
Theorem isDatabaseComponent_case_insensitive (s : string) :
  Diagram3D_isDatabaseComponent (Some (toLowerCase s)) = Diagram3D_isDatabaseComponent (Some s).
Proof. unfold Diagram3D_isDatabaseComponent; rewrite toLowerCase_idem; reflexivity. Qed.


(** The cylinder [createComponent] builds for a database component has
    radius [0.6 * size], but the calculator resolves its side attachment
    points at the fixed radius 0.9 from the axis (and its cap points at the
    fixed half height 0.9 where the mesh has [0.6 * size]): for a positive
    size, the side points lie on the mesh's surface exactly when
    [size = 1.5]. *)
Theorem database_cylinder_side_points_match_only_default_size
    (compData : component_data) (layerPlatform : option platform_data) (g : geometry)
    (target : element)
    (Hdb : Diagram3D_isDatabaseComponent (cd_name compData) = true)
    (Hsize : 0 < js_or (cd_size compData) 1.5) :
  let pc := createComponent compData layerPlatform in
  let size := js_or (cd_size compData) 1.5 in
  let cyl := Element "component" (pc_position pc) g (pc_isDatabaseComponent pc)
                     (pc_hasPlataform pc) in
  let c := pc_position pc in
  let dx := vx (position target) - vx c in
  let dy := vy (position target) - vy c in
  let dz := vz (position target) - vz c in
  let r := getConnectionPoint cyl target in
  pc_shape pc = CylinderShape (size * 0.6) (size * 0.6) (size * 1.2) /\
  (size * 1.2 / 2 = cylinder_height / 2 <-> size = 1.5) /\
  (Rabs dy <= sqrt (dx * dx + dz * dz) -> 0 < sqrt (dx * dx + dz * dz) ->
   ((vx r - vx c) * (vx r - vx c) + (vz r - vz c) * (vz r - vz c)
      = (size * 0.6) * (size * 0.6) <-> size = 1.5)).
Proof.
  intros pc size cyl c dx dy dz r.
  assert (Hpc : pc_isDatabaseComponent pc = true) by (unfold pc, createComponent; exact Hdb).
  split; [unfold pc, createComponent; cbn; rewrite Hdb; reflexivity|].
  split; [unfold cylinder_height; split; intros; lra|].
  intros Hdy Hh.
  pose proof (cylinder_point_general cyl target eq_refl Hpc) as HG; cbv zeta in HG.
  change (position cyl) with c in HG; fold dx dy dz r in HG.
  destruct HG as [[Hlt _] | [[_ [_ [_ Hr]]] | [Hx [_ [Hz _]]]]].
  - lra.
  - rewrite Hr; unfold cylinder_radius. fold size in Hsize.
    split; intros H.
    + assert (E : (size * 3 - 9 / 2) * (size * 3 + 9 / 2) = 0) by nra.
      apply Rmult_integral in E as [E|E]; lra.
    + rewrite H; lra.
  - rewrite Hx, Hz in Hh. replace (0 * 0 + 0 * 0) with 0 in Hh by ring.
    rewrite sqrt_0 in Hh; lra.
Qed.

Lemma database_cylinder_side_points_match_only_default_size_witness :
  let cd := ComponentData (Some "Orders DB"%string) (Some 1) (Some 2) None (Some (-4)) in
  Diagram3D_isDatabaseComponent (cd_name cd) = true /\ 0 < js_or (cd_size cd) 1.5 /\
  pc_shape (createComponent cd None) = CylinderShape (js_or (cd_size cd) 1.5 * 0.6)
                                          (js_or (cd_size cd) 1.5 * 0.6)
                                          (js_or (cd_size cd) 1.5 * 1.2).
Proof.
  intros cd.
  assert (Hdb : Diagram3D_isDatabaseComponent (cd_name cd) = true) by reflexivity.
  assert (Hsize : 0 < js_or (cd_size cd) 1.5)
    by (unfold cd, js_or; cbn; destruct (Req_EM_T 1 0); lra).
  split; [exact Hdb|]; split; [exact Hsize|].
  exact (proj1 (database_cylinder_side_points_match_only_default_size cd None
                  (Geometry (BoxParams 0 0 0) no_bbox) (node_at (V3 5 0 0)) Hdb Hsize)).
Defined.

Lemma js_or_pos (x : option R) (d : R) :
  (forall v, x = Some v -> 0 <= v) -> 0 < d -> 0 < js_or x d.
Proof.
  intros Hx Hd; unfold js_or; destruct x as [v|]; [|exact Hd].
  destruct (Req_EM_T v 0) as [E|E]; [exact Hd|].
  pose proof (Hx v eq_refl); lra.
Qed.

(** With no negative dimension configured, [createPlatform] always builds a
    box of positive width, height and depth (a configured 0 falls back to
    the default); a configured [y] of 0 cannot be expressed: the platform
    is placed at [y = -0.25]. *)
Theorem createPlatform_positive_box (platformData : platform_data)
    (Hw : forall v, pd_width platformData = Some v -> 0 <= v)
    (Hh : forall v, pd_height platformData = Some v -> 0 <= v)
    (Hd : forall v, pd_depth platformData = Some v -> 0 <= v) :
  let p := parameters (egeometry (createPlatform platformData)) in
  etype (createPlatform platformData) = "platform"%string /\
  0 < width p /\ 0 < height p /\ 0 < depth p /\
  (pd_y platformData = Some 0 -> vy (position (createPlatform platformData)) = -0.25).
Proof.
  intros p; unfold p, createPlatform; cbn.
  split; [reflexivity|].
  split; [apply js_or_pos; [exact Hw | lra]|].
  split; [apply js_or_pos; [exact Hh | lra]|].
  split; [apply js_or_pos; [exact Hd | lra]|].
  intros Hy; rewrite Hy; unfold js_or; destruct (Req_EM_T 0 0); [reflexivity | lra].
Qed.

Lemma createPlatform_positive_box_witness :
  let pd := PlatformData (Some 8) (Some 0.2) (Some 0) None (Some 0) None in
  (forall v, pd_width pd = Some v -> 0 <= v) /\
  (forall v, pd_height pd = Some v -> 0 <= v) /\
  (forall v, pd_depth pd = Some v -> 0 <= v) /\
  0 < depth (parameters (egeometry (createPlatform pd))).
Proof.
  intros pd.
  assert (Hw : forall v, pd_width pd = Some v -> 0 <= v)
    by (intros v Hv; cbn in Hv; injection Hv as <-; lra).
  assert (Hh : forall v, pd_height pd = Some v -> 0 <= v)
    by (intros v Hv; cbn in Hv; injection Hv as <-; lra).
  assert (Hd : forall v, pd_depth pd = Some v -> 0 <= v)
    by (intros v Hv; cbn in Hv; injection Hv as <-; lra).
  split; [exact Hw|]; split; [exact Hh|]; split; [exact Hd|].
  exact (proj1 (proj2 (proj2 (proj2 (createPlatform_positive_box pd Hw Hh Hd))))).
Defined.

Lemma find_app_none {A} (f : A -> bool) (pre rest : list A) :
  Forall (fun a => f a = false) pre -> find f (pre ++ rest) = find f rest.
Proof. intros H; induction H as [|a pre Ha _ IH]; simpl; [reflexivity|]; rewrite Ha; exact IH. Qed.

(** [findElement] returns the first component matching by name or by the
    (non-empty) layer: a component of the identifier's layer shadows the
    named component whenever it comes first, whatever its own name. *)
Theorem findElement_layer_shadows_name (d : diagram) (idf : identifier)
    (pre rest : list scene_component) (c : scene_component)
    (Htype : id_type idf = "component"%string)
    (Hlayer : truthy_string (id_layer idf) = true)
    (Hsplit : components d = pre ++ c :: rest)
    (Hpre : Forall (fun c' => component_matches idf c' = false) pre)
    (Hc : opt_string_eqb (sc_layer c) (id_layer idf) = true) :
  findElement d idf = Some (sc_element c).
Proof.
  unfold findElement; rewrite Htype, Hsplit; cbn [String.eqb Ascii.eqb Bool.eqb].
  rewrite find_app_none by exact Hpre; simpl.
  unfold component_matches at 1; rewrite Hlayer, Hc, orb_true_r; reflexivity.
Qed.

Lemma findElement_layer_shadows_name_witness :
  let form := SceneComponent (node_at (V3 0 0 0)) (Some "Form"%string) (Some "ui"%string) in
  let api := SceneComponent (node_at (V3 5 0 0)) (Some "API"%string) (Some "ui"%string) in
  let idf := Identifier "component" (Some "API"%string) (Some "ui"%string) in
  findElement (Diagram [] [form; api]) idf = Some (sc_element form).
Proof.
  intros form api idf.
  exact (findElement_layer_shadows_name (Diagram [] [form; api]) idf [] [api] form
           eq_refl eq_refl eq_refl (Forall_nil _) eq_refl).
Defined.

Lemma addConnection_lengths fromE toE options id r1 r2 m :
  length (connections (addConnection fromE toE options id r1 r2 m)) = S (length (connections m)) /\
  length (curves (addConnection fromE toE options id r1 r2 m)) = S (length (curves m)).
Proof.
  unfold addConnection; destruct (animationEnabled m); cbn;
    rewrite !length_app; cbn; split; lia.
Qed.

(** [createConnections] adds exactly one connection and one curve per
    configuration entry whose two endpoints [findElement] resolves, in
    order and under the successive generated ids, and silently skips the
    others. *)
Theorem createConnections_adds_found (d : diagram) (ids : nat -> string)
    (rnd : nat -> R * R) (cs : list connection_config) (m : manager) :
  let m' := createConnections d ids rnd cs m in
  length (connections m') = (length (connections m) + length (filter (endpoints_found d) cs))%nat /\
  length (curves m') = (length (curves m) + length (filter (endpoints_found d) cs))%nat /\
  map cid (connections m')
    = map cid (connections m) ++ map ids (seq 0 (length (filter (endpoints_found d) cs))).
Proof.
  intros m'; unfold m', createConnections.
  cut (forall n m, let m' := createConnections_from d ids rnd n cs m in
         length (connections m') = (length (connections m) + length (filter (endpoints_found d) cs))%nat /\
         length (curves m') = (length (curves m) + length (filter (endpoints_found d) cs))%nat /\
         map cid (connections m')
           = map cid (connections m) ++ map ids (seq n (length (filter (endpoints_found d) cs)))).
  { intros H; exact (H 0%nat m). }
  induction cs as [|conn cs IH]; intros n m0; cbn zeta.
  - cbn; rewrite app_nil_r; split; [lia|]; split; [lia|reflexivity].
  - cbn [createConnections_from filter].
    destruct (findElement d (cc_from conn)) as [f|] eqn:Ef,
      (findElement d (cc_to conn)) as [t|] eqn:Et;
      assert (Ee : endpoints_found d conn
                   = match findElement d (cc_from conn), findElement d (cc_to conn) with
                     | Some _, Some _ => true | _, _ => false end) by reflexivity;
      rewrite ?Ef, ?Et in Ee; cbv iota in Ee; rewrite Ee;
      try exact (IH n m0).
    destruct (IH (S n) (addConnection f t (cc_options conn) (ids n) (fst (rnd n)) (snd (rnd n)) m0))
      as [H1 [H2 H3]].
    destruct (addConnection_lengths f t (cc_options conn) (ids n) (fst (rnd n)) (snd (rnd n)) m0)
      as [L1 L2].
    cbn [length]; rewrite H1, H2, H3, L1, L2.
    split; [lia|]; split; [lia|].
    assert (Hc : connections (addConnection f t (cc_options conn) (ids n) (fst (rnd n)) (snd (rnd n)) m0)
                 = connections m0
                   ++ [Connection (ids n) f t
                         (createCurve (getConnectionPoint f t) (getConnectionPoint t f)
                            (merge_curve_options (baseCurveOptions m0) (acurve (cc_options conn))))
                         (merge_curve_options (baseCurveOptions m0) (acurve (cc_options conn)))])
      by (unfold addConnection; destruct (animationEnabled m0); reflexivity).
    rewrite Hc, map_app, <- app_assoc; reflexivity.
Qed.
